(** * FormoTensor Python bridge: a shallow embedding of
      [python/formotensor_bridge.cpp]

    The bridge is a pybind11 module whose [TensorNetworkHelper] class has only
    static member functions and no data members.  Its functions talk to three
    external collaborators:

    - the Python object model (attribute probing, calls, casts),
    - the C++ exception mechanism ([throw], [try]/[catch]),
    - the CUDA runtime ([cudaMemcpy], [cudaGetErrorString]) and the host
      allocators ([std::vector], [py::array_t]).

    Each collaborator is modelled at the interface the bridge uses; the
    bridge functions themselves are transcribed statement by statement. *)

From Stdlib Require Import ZArith Lia.
From stdpp Require Import gmap strings list pretty.

Local Open Scope Z_scope.

Abbreviation byte := Byte.byte.

(** ** Results of fallible computations *)

Inductive result (E A : Type) : Type :=
| Ok (a : A)
| Err (e : E).
Arguments Ok {E A} a.
Arguments Err {E A} e.

(** ** Machine integers *)

Module Word.

(** [size_t], [uint64_t] and [uintptr_t] are 64 bits wide. *)
Definition SIZE_MAX1 : Z := 2 ^ 64.
Definition SSIZE_MAX : Z := 2 ^ 63 - 1.

(** Unsigned wrap-around of [size_t] arithmetic. *)
Definition wrap (z : Z) : Z := z mod SIZE_MAX1.

(** Conversion [size_t -> ssize_t] of a value already in range. *)
Definition to_ssize (z : Z) : Z :=
  if z <=? SSIZE_MAX then z else z - SIZE_MAX1.

Definition in_size_t (z : Z) : bool := (0 <=? z) && (z <? SIZE_MAX1).

(** [sizeof(std::complex<double>)]. *)
Definition sizeof_complex_double : Z := 16.

End Word.

(** ** The Python object model, as far as the bridge can observe it *)

Module Py.

(** A raised Python exception: its type name and its message. *)
Record pyexn := PyExn { exn_type : string; exn_msg : string }.

(** Python values.  [PyInst] is an instance of some class: its attribute
    dictionary, what happens when it is called (if it is callable at all;
    the bridge only ever passes integer arguments), and the address of the
    C++ value it wraps when it is an instance of a pybind11-registered
    type.  [PyList] stands for any list or tuple. *)
#[local] Unset Elimination Schemes.
Inductive pyobj : Type :=
| PyNone
| PyInt (n : Z)
| PyStr (s : string)
| PyCapsule (addr : Z)
| PyList (items : list pyobj)
| PyInst (attrs : gmap string pyobj)
         (call : option (list Z -> result pyexn pyobj))
         (cptr : option Z).
#[local] Set Elimination Schemes.

Definition TypeError (msg : string) : pyexn := PyExn "TypeError" msg.
Definition ValueError (msg : string) : pyexn := PyExn "ValueError" msg.
Definition AttributeError (msg : string) : pyexn := PyExn "AttributeError" msg.

(** A bound method without attributes of its own. *)
Definition method (f : list Z -> result pyexn pyobj) : pyobj :=
  PyInst ∅ (Some f) None.

(** [getattr(o, name)].  Of the built-in types only the attributes the
    bridge probes for are modelled: lists and strings have [__len__]. *)
Definition getattr (o : pyobj) (name : string) : option pyobj :=
  match o with
  | PyInst attrs _ _ => attrs !! name
  | PyList items =>
      if String.eqb name "__len__"
      then Some (method (fun _ => Ok (PyInt (Z.of_nat (length items)))))
      else None
  | PyStr s =>
      if String.eqb name "__len__"
      then Some (method (fun _ => Ok (PyInt (Z.of_nat (String.length s)))))
      else None
  | _ => None
  end.

(** [py::hasattr(o, name)]: [PyObject_HasAttrString(...) == 1]; it never
    raises. *)
Definition hasattr (o : pyobj) (name : string) : bool :=
  match getattr o name with
  | Some _ => true
  | None => false
  end.

(** [PyObject_CallObject(f, args)]. *)
Definition call (f : pyobj) (args : list Z) : result pyexn pyobj :=
  match f with
  | PyInst _ (Some body) _ => body args
  | _ => Err (TypeError "object is not callable")
  end.

(** [py::isinstance<py::int_>(o)]. *)
Definition is_int (o : pyobj) : bool :=
  match o with
  | PyInt _ => true
  | _ => false
  end.

End Py.
Import Py.

(** ** C++ exceptions and the two computation monads *)

Module Cxx.

(** The exception types that can be in flight inside the bridge.  All of
    them derive from [std::exception]. *)
Inductive exn : Type :=
| runtime_error (msg : string)
| length_error (msg : string)
| cast_error (msg : string)
| error_already_set (e : pyexn).

(** [e.what()]. *)
Definition what (e : exn) : string :=
  match e with
  | runtime_error msg => msg
  | length_error msg => msg
  | cast_error msg => msg
  | error_already_set pe => exn_type pe +:+ ": " +:+ exn_msg pe
  end.

(** Code that touches no device: it returns or throws. *)
Definition cpp (A : Type) : Type := result exn A.

Definition ret {A} (a : A) : cpp A := Ok a.
Definition throw {A} (e : exn) : cpp A := Err e.

Definition bind {A B} (c : cpp A) (k : A -> cpp B) : cpp B :=
  match c with
  | Ok a => k a
  | Err e => Err e
  end.

(** [try { body } catch (const std::exception& e) { handler e }]. *)
Definition try_catch_std {A} (body : cpp A) (handler : exn -> cpp A) : cpp A :=
  match body with
  | Ok a => Ok a
  | Err e => handler e
  end.

(** [try { body } catch (const py::error_already_set&) { handler }]:
    every other exception type passes through. *)
Definition try_catch_pyerr {A} (body : cpp A) (handler : cpp A) : cpp A :=
  match body with
  | Err (error_already_set _) => handler
  | r => r
  end.

End Cxx.
Import Cxx.

Declare Scope cpp_scope.
Delimit Scope cpp_scope with cpp.
Notation "'let*' x ':=' c 'in' k" := (Cxx.bind c (fun x => k))
  (at level 10, x name, c at level 200, k at level 200,
   format "'[v' 'let*'  x  ':='  c  'in' '/' k ']'") : cpp_scope.

(** ** pybind11 glue: attribute access, calls and casts *)

Module Pybind.

Local Open Scope cpp_scope.

Definition cast_msg : string := "Unable to cast Python instance to C++ type".

(** [o.attr(name)], forced. *)
Definition attr (o : pyobj) (name : string) : cpp pyobj :=
  match Py.getattr o name with
  | Some v => ret v
  | None => throw (error_already_set (AttributeError name))
  end.

(** [o.attr(name)(args...)]. *)
Definition attr_call (o : pyobj) (name : string) (args : list Z) : cpp pyobj :=
  let* f := attr o name in
  match Py.call f args with
  | Ok v => ret v
  | Err e => throw (error_already_set e)
  end.

(** [o.cast<size_t>()] and [o.cast<uintptr_t>()]. *)
Definition cast_size_t (o : pyobj) : cpp Z :=
  match o with
  | PyInt n => if Word.in_size_t n then ret n else throw (cast_error cast_msg)
  | _ => throw (cast_error cast_msg)
  end.

Fixpoint cast_items (items : list pyobj) : cpp (list Z) :=
  match items with
  | [] => ret []
  | o :: rest =>
      let* n := cast_size_t o in
      let* ns := cast_items rest in
      ret (n :: ns)
  end.

(** [o.cast<std::vector<size_t>>()]: a sequence that is not a string,
    every element of which casts to [size_t]. *)
Definition cast_vector_size_t (o : pyobj) : cpp (list Z) :=
  match o with
  | PyList items => cast_items items
  | _ => throw (cast_error cast_msg)
  end.

(** [o.cast<void*>()]: [None] is the null pointer, a capsule yields the
    pointer it holds, an instance of a registered type the address of its
    value. *)
Definition cast_void_ptr (o : pyobj) : cpp Z :=
  match o with
  | PyNone => ret 0
  | PyCapsule addr => ret addr
  | PyInst _ _ (Some addr) => ret addr
  | _ => throw (cast_error cast_msg)
  end.

(** [py::len(o)]: [PyObject_Size], a non-negative [ssize_t] or a Python
    error. *)
Definition len (o : pyobj) : cpp Z :=
  let* f := attr o "__len__" in
  match Py.call f [] with
  | Ok (PyInt n) =>
      if (0 <=? n) && (n <=? Word.SSIZE_MAX) then ret n
      else throw (error_already_set (ValueError "__len__() should return >= 0"))
  | Ok _ => throw (error_already_set (TypeError "object cannot be interpreted as an integer"))
  | Err e => throw (error_already_set e)
  end.

End Pybind.

(** ** [struct TensorInfo] *)

Record TensorInfo := mkTensorInfo {
  shape : list Z;            (* std::vector<size_t> *)
  total_elements : Z;        (* size_t *)
  size_bytes : Z;            (* size_t *)
  dtype : string;
  device_ptr : Z             (* uint64_t; non-zero means data is available *)
}.

(** The default constructor:
    [total_elements(0), size_bytes(0), device_ptr(0), dtype("unknown")]. *)
Definition TensorInfo_default : TensorInfo :=
  {| shape := []; total_elements := 0; size_bytes := 0;
     dtype := "unknown"; device_ptr := 0 |}.

(** The descriptor's [data_available] flag is [device_ptr != 0]. *)
Definition data_available (info : TensorInfo) : bool :=
  negb (device_ptr info =? 0).

(** [size_t total = 1; for (auto dim : extents) total *= dim;] *)
Definition mul_dims (extents : list Z) : Z :=
  fold_left (fun total dim => Word.wrap (total * dim)) extents 1.

(** The mathematical product of the shape entries. *)
Definition product (dims : list Z) : Z := fold_right Z.mul 1 dims.

(** ** The machine below the bridge: device memory, CUDA runtime, host heap *)

Module Machine.

(** What the bridge's calls can observe or change: the bytes of device
    memory, a sticky device fault (0 when the device is healthy), the
    runtime's last-error slot, and the undefined contents a fresh host
    allocation comes with.  Host memory is taken to be plentiful: an
    allocation fails only for a size that the allocator rejects outright. *)
Record machine := mkMachine {
  gpu_mem : gmap Z byte;
  gpu_sticky : Z;
  cuda_last_error : Z;
  heap_noise : nat -> byte
}.

(** The machine after the runtime has recorded the status [err]. *)
Definition record_error (err : Z) (m : machine) : machine :=
  {| gpu_mem := gpu_mem m; gpu_sticky := gpu_sticky m;
     cuda_last_error := err; heap_noise := heap_noise m |}.

(** The machine after [n] bytes of fresh heap were handed out. *)
Definition consume_heap (n : nat) (m : machine) : machine :=
  {| gpu_mem := gpu_mem m; gpu_sticky := gpu_sticky m;
     cuda_last_error := cuda_last_error m;
     heap_noise := fun k => heap_noise m (n + k)%nat |}.

(** Code that may touch the machine.  A thrown exception does not undo
    what was done to the machine before it. *)
Definition mach (A : Type) : Type := machine -> result exn A * machine.

Definition mret {A} (a : A) : mach A := fun m => (Ok a, m).
Definition mthrow {A} (e : exn) : mach A := fun m => (Err e, m).
Definition lift {A} (c : cpp A) : mach A := fun m => (c, m).

Definition mbind {A B} (c : mach A) (k : A -> mach B) : mach B :=
  fun m =>
    match c m with
    | (Ok a, m') => k a m'
    | (Err e, m') => (Err e, m')
    end.

(** [try { body } catch (const std::exception& e) { handler e }]. *)
Definition mtry_catch_std {A} (body : mach A) (handler : exn -> mach A) : mach A :=
  fun m =>
    match body m with
    | (Ok a, m') => (Ok a, m')
    | (Err e, m') => handler e m'
    end.

(** *** CUDA runtime *)

Definition cudaSuccess : Z := 0.
Definition cudaErrorInvalidValue : Z := 1.
Definition cudaErrorMemoryAllocation : Z := 2.
Definition cudaErrorIllegalAddress : Z := 700.

Definition cudaGetErrorString (err : Z) : string :=
  if err =? cudaSuccess then "no error"
  else if err =? cudaErrorInvalidValue then "invalid argument"
  else if err =? cudaErrorMemoryAllocation then "out of memory"
  else if err =? cudaErrorIllegalAddress
       then "an illegal memory access was encountered"
  else "unrecognized error code".

(** Read [n] bytes of device memory from [src] on, stopping at the first
    address that is not mapped.  The flag tells whether all [n] were read. *)
Fixpoint dev_read (mem : gmap Z byte) (src : Z) (n : nat) : list byte * bool :=
  match n with
  | O => ([], true)
  | S n' =>
      match mem !! src with
      | Some b =>
          let '(bs, complete) := dev_read mem (src + 1) n' in
          (b :: bs, complete)
      | None => ([], false)
      end
  end.

(** [cudaMemcpy(dst, src, count, cudaMemcpyDeviceToHost)]: the status and
    the contents of the destination afterwards.  A failing transfer may
    leave the destination partly written; device memory is only read. *)
Definition cudaMemcpy_DeviceToHost (dst : list byte) (src count : Z)
    : mach (Z * list byte) :=
  fun m =>
  if negb (gpu_sticky m =? cudaSuccess) then
    (Ok (gpu_sticky m, dst), record_error (gpu_sticky m) m)
  else
    let '(bs, complete) := dev_read (gpu_mem m) src (Z.to_nat count) in
    let dst' := bs ++ drop (length bs) dst in
    if complete then (Ok (cudaSuccess, dst'), m)
    else (Ok (cudaErrorInvalidValue, dst'), record_error cudaErrorInvalidValue m).

(** *** Host allocations *)

(** [std::vector<std::complex<double>>::max_size()]. *)
Definition vector_max_size : Z := Word.SSIZE_MAX / Word.sizeof_complex_double.

(** [std::vector<std::complex<double>> v(n)]: [n] value-initialised
    elements, i.e. [16 * n] zero bytes.  Only the size the vector rejects
    outright is modelled; running out of host memory ([std::bad_alloc]) is
    not. *)
Definition vector_new (n : Z) : cpp (list byte) :=
  if n >? vector_max_size then
    throw (length_error "cannot create std::vector larger than max_size()")
  else ret (replicate (Z.to_nat (n * Word.sizeof_complex_double)) Byte.x00).

(** [std::memcpy(dst, src, n)] on the contents of two buffers. *)
Definition memcpy (dst src : list byte) (n : Z) : list byte :=
  take (Z.to_nat n) src ++ drop (Z.to_nat n) dst.

(** A NumPy array of [complex128]: its shape and its raw bytes. *)
Record ndarray := mkNdarray {
  nd_shape : list Z;
  nd_data : list byte
}.

(** NumPy's check of the dimensions of a new array: no dimension is
    negative, and the byte size over the non-zero dimensions fits
    [ssize_t]. *)
Fixpoint npy_check_dims (dims : list Z) (nbytes : Z) : result pyexn Z :=
  match dims with
  | [] => Ok nbytes
  | d :: rest =>
      if d =? 0 then npy_check_dims rest nbytes
      else if d <? 0 then
        Err (ValueError "negative dimensions are not allowed")
      else if nbytes * d >? Word.SSIZE_MAX then
        Err (ValueError "array is too big")
      else npy_check_dims rest (nbytes * d)
  end.

(** [py::array_t<std::complex<double>> result(shape)]: a fresh array whose
    contents are whatever the heap held. *)
Definition array_new (shp : list Z) : mach ndarray :=
  fun m =>
    match npy_check_dims shp Word.sizeof_complex_double with
    | Err e => (Err (error_already_set e), m)
    | Ok _ =>
        let nbytes := Z.to_nat (Word.sizeof_complex_double * product shp) in
        (Ok {| nd_shape := shp;
               nd_data := map (heap_noise m) (seq 0 nbytes) |},
         consume_heap nbytes m)
    end.

End Machine.
Import Machine.

Declare Scope mach_scope.
Delimit Scope mach_scope with mach.
Notation "'let*' x ':=' c 'in' k" := (Machine.mbind c (fun x => k))
  (at level 10, x name, c at level 200, k at level 200,
   format "'[v' 'let*'  x  ':='  c  'in' '/' k ']'") : mach_scope.

(** ** [class TensorNetworkHelper] *)

Module TensorNetworkHelper.

Local Open Scope cpp_scope.

Definition get_num_qubits (state : pyobj) : cpp Z :=
  if negb (Py.hasattr state "num_qubits") then
    throw (runtime_error "State object does not have 'num_qubits' method")
  else
    let* n := Pybind.attr_call state "num_qubits" [] in
    Pybind.cast_size_t n.

Definition has_tensors (state : pyobj) : bool :=
  Py.hasattr state "getTensors" || Py.hasattr state "getTensor".

Definition get_tensor_info (state : pyobj) (idx : Z) : cpp TensorInfo :=
  if negb (Py.hasattr state "getTensor") then
    throw (runtime_error "State object does not support getTensor()")
  else
    let info := TensorInfo_default in
    try_catch_std
      (let* tensor_obj := Pybind.attr_call state "getTensor" [idx] in
       let* info :=
         if Py.hasattr tensor_obj "extents" then
           let* ext := Pybind.attr tensor_obj "extents" in
           let* extents := Pybind.cast_vector_size_t ext in
           let total := mul_dims extents in
           ret {| shape := extents;
                  total_elements := total;
                  size_bytes := Word.wrap (total * Word.sizeof_complex_double);
                  dtype := "complex128";
                  device_ptr := device_ptr info |}
         else ret info in
       let info :=
         if Py.hasattr tensor_obj "data" then
           {| shape := shape info;
              total_elements := total_elements info;
              size_bytes := size_bytes info;
              dtype := dtype info;
              device_ptr := 1 |}
         else info in
       ret info)
      (fun e => throw (runtime_error ("Failed to get tensor info: " +:+ what e))).

(** The body of [for (size_t i = 0; i < num_tensors; ++i)], with
    [fuel = num_tensors - i] iterations left. *)
Fixpoint all_tensors_loop (state : pyobj) (i : Z) (fuel : nat)
    (tensors : list TensorInfo) : list TensorInfo :=
  match fuel with
  | O => tensors
  | S fuel' =>
      match get_tensor_info state i with
      | Ok info => all_tensors_loop state (i + 1) fuel' (tensors ++ [info])
      | Err _ => all_tensors_loop state (i + 1) fuel' tensors
      end
  end.

Definition get_all_tensors_info (state : pyobj) : cpp (list TensorInfo) :=
  let tensors := [] in
  if Py.hasattr state "getTensors" then
    try_catch_std
      (let* tensors_obj := Pybind.attr_call state "getTensors" [] in
       if Py.hasattr tensors_obj "__len__" then
         let* num_tensors := Pybind.len tensors_obj in
         ret (all_tensors_loop state 0 (Z.to_nat num_tensors) tensors)
       else ret tensors)
      (fun e => throw (runtime_error ("Failed to get tensors: " +:+ what e)))
  else ret tensors.

(** The resolution of the device pointer inside [extract_tensor_data]
    (the inner [try]/[catch] on [py::error_already_set]). *)
Definition resolve_device_ptr (tensor_obj : pyobj) : cpp Z :=
  try_catch_pyerr
    (let* data_result := Pybind.attr_call tensor_obj "data" [] in
     if Py.is_int data_result then Pybind.cast_size_t data_result
     else Pybind.cast_void_ptr data_result)
    (let* data_obj := Pybind.attr tensor_obj "data" in
     Pybind.cast_void_ptr data_obj).

Local Open Scope mach_scope.

Definition extract_tensor_data (state : pyobj) (idx : Z) : mach ndarray :=
  if negb (Py.hasattr state "getTensor") then
    mthrow (runtime_error "State object does not support getTensor()")
  else
    mtry_catch_std
      (let* tensor_obj := lift (Pybind.attr_call state "getTensor" [idx]) in
       if Py.hasattr tensor_obj "data" && Py.hasattr tensor_obj "extents" then
         let* ext := lift (Pybind.attr tensor_obj "extents") in
         let* extents := lift (Pybind.cast_vector_size_t ext) in
         let* device_ptr := lift (resolve_device_ptr tensor_obj) in
         let total_size := mul_dims extents in
         let* host_data := lift (vector_new total_size) in
         let count := Word.wrap (total_size * Word.sizeof_complex_double) in
         let* copied := cudaMemcpy_DeviceToHost host_data device_ptr count in
         let '(err, host_data) := copied in
         if negb (err =? cudaSuccess) then
           mthrow (runtime_error
                     ("CUDA memcpy failed: " +:+ cudaGetErrorString err))
         else
           let shape := map Word.to_ssize extents in
           let* result := array_new shape in
           mret {| nd_shape := nd_shape result;
                   nd_data := memcpy (nd_data result) host_data count |}
       else
         mthrow (runtime_error
                   "Tensor object does not expose 'data' or 'extents' attributes"))
      (fun e => mthrow (runtime_error
                          ("Failed to extract tensor data: " +:+ what e))).

End TensorNetworkHelper.

Import TensorNetworkHelper.

(** ** The module definition: [TensorInfo.__repr__] *)

Module Repr.

(** [std::to_string] of a [size_t]: its decimal digits. *)
Definition to_string (n : Z) : string := pretty (Z.to_N n).

(** [for (size_t i = 0; i < info.shape.size(); ++i)], with
    [fuel = info.shape.size() - i] iterations left. *)
Fixpoint shape_str_loop (shape : list Z) (i : nat) (fuel : nat)
    (shape_str : string) : string :=
  match fuel with
  | O => shape_str
  | S fuel' =>
      let shape_str := if (0 <? i)%nat then shape_str +:+ ", " else shape_str in
      let shape_str := shape_str +:+ to_string (nth i shape 0) in
      shape_str_loop shape (S i) fuel' shape_str
  end.

Definition repr (info : TensorInfo) : string :=
  let shape_str := "[" in
  let shape_str := shape_str_loop (shape info) 0 (length (shape info)) shape_str in
  let shape_str := shape_str +:+ "]" in
  (((((("<TensorInfo: shape=" +:+ shape_str) +:+
       ", elements=") +:+ to_string (total_elements info)) +:+
     ", dtype=") +:+ dtype info) +:+ ">").

End Repr.

(** ** Vocabulary of the statements *)

(** An object exposes a capability when probing for the attribute succeeds. *)
Definition exposes (o : pyobj) (name : string) : Prop :=
  is_Some (Py.getattr o name).

(** A [size_t] value. *)
Definition is_size_t (z : Z) : Prop := 0 <= z < Word.SIZE_MAX1.

Definition ok_to_option {E A} (r : result E A) : option A :=
  match r with
  | Ok a => Some a
  | Err _ => None
  end.

(** The descriptors of the indices [0 .. n-1] at which the per-index
    descriptor call succeeds, in index order. *)
Definition succeeding_descriptors (state : pyobj) (n : nat) : list TensorInfo :=
  omap (fun i => ok_to_option (get_tensor_info state (Z.of_nat i))) (seq 0 n).

(** What every descriptor built by [get_tensor_info] satisfies: the byte size
    is sixteen times the element count, and the element count is the product
    of the shape, both in [size_t] arithmetic; the descriptor of an object
    without shape keeps the constructor's zero count. *)
Definition descriptor_inv (info : TensorInfo) : Prop :=
  Forall is_size_t (shape info) /\
  size_bytes info = Word.wrap (total_elements info * 16) /\
  ((dtype info = "unknown" /\ shape info = [] /\ total_elements info = 0) \/
   (dtype info = "complex128" /\
    total_elements info = Word.wrap (product (shape info)))).

(** What the sizes of a descriptor must be, given the tensor object it was
    built from.  When the object has [extents], the shape is the cast of
    that attribute, the element count is the product of the shape and the
    byte size sixteen times the count, in [size_t] arithmetic and hence
    exactly when sixteen times the product fits 64 bits.  When the object
    has no [extents], the shape is empty and both sizes are zero. *)
Definition descriptor_sizes_for (tensor_obj : pyobj) (info : TensorInfo) : Prop :=
  size_bytes info = Word.wrap (total_elements info * 16) /\
  (forall ext,
     Py.getattr tensor_obj "extents" = Some ext ->
     Pybind.cast_vector_size_t ext = Ok (shape info) /\
     total_elements info = Word.wrap (product (shape info)) /\
     (product (shape info) * 16 < Word.SIZE_MAX1 ->
      total_elements info = product (shape info) /\
      size_bytes info = total_elements info * 16)) /\
  (~ exposes tensor_obj "extents" ->
     shape info = [] /\ total_elements info = 0 /\ size_bytes info = 0).

(** Two machines with the same device content. *)
Definition same_device (m m' : machine) : Prop :=
  gpu_mem m = gpu_mem m' /\ gpu_sticky m = gpu_sticky m'.

(** The part of [extract_tensor_data] that only introspects: from the call
    of [getTensor] to the resolved shape and device pointer. *)
Definition locate_tensor (state : pyobj) (idx : Z) : cpp (list Z * Z) :=
  (let* tensor_obj := Pybind.attr_call state "getTensor" [idx] in
   if Py.hasattr tensor_obj "data" && Py.hasattr tensor_obj "extents" then
     let* ext := Pybind.attr tensor_obj "extents" in
     let* extents := Pybind.cast_vector_size_t ext in
     let* device_ptr := resolve_device_ptr tensor_obj in
     ret (extents, device_ptr)
   else
     throw (runtime_error
              "Tensor object does not expose 'data' or 'extents' attributes"))%cpp.

(** What the outer handler of [extract_tensor_data] rethrows. *)
Definition extraction_failure (e : exn) : exn :=
  runtime_error ("Failed to extract tensor data: " +:+ what e).

(** The part of [extract_tensor_data] from the size computation to the
    returned array, as a function of the resolved shape and pointer. *)
Definition transfer (extents : list Z) (device_ptr : Z) : mach ndarray :=
  (let total_size := mul_dims extents in
   let* host_data := lift (vector_new total_size) in
   let count := Word.wrap (total_size * Word.sizeof_complex_double) in
   let* copied := cudaMemcpy_DeviceToHost host_data device_ptr count in
   let '(err, host_data) := copied in
   if negb (err =? cudaSuccess) then
     mthrow (runtime_error ("CUDA memcpy failed: " +:+ cudaGetErrorString err))
   else
     let shape := map Word.to_ssize extents in
     let* result := array_new shape in
     mret {| nd_shape := nd_shape result;
             nd_data := memcpy (nd_data result) host_data count |})%mach.

(** The value [d] of a [data] attribute presents the address [p]: as a
    callable returning the address as an integer, as a callable returning a
    capsule, or as a plain capsule property. *)
Definition presents_address (d : pyobj) (p : Z) : Prop :=
  (Py.call d [] = Ok (PyInt p) /\ is_size_t p) \/
  Py.call d [] = Ok (PyCapsule p) \/
  d = PyCapsule p.

(** The error thrown for a handle without [getTensor]. *)
Definition unsupported_handle : exn :=
  runtime_error "State object does not support getTensor()".

(** ** Concrete handles, tensors and machines *)

Module Examples.

Definition instance (attrs : gmap string pyobj) : pyobj :=
  PyInst attrs None None.

(** A method of one integer argument. *)
Definition method1 (f : Z -> result pyexn pyobj) : pyobj :=
  method (fun args =>
            match args with
            | [i] => f i
            | _ => Err (TypeError "takes exactly one argument")
            end).

(** A [2 x 2] tensor whose [data] is a bound method returning the address
    4096 as an integer. *)
Definition tensor_2x2 : pyobj :=
  instance {[ "extents" := PyList [PyInt 2; PyInt 2];
              "data" := method (fun _ => Ok (PyInt 4096)) ]}.

(** The same tensor with [data] as a plain capsule property. *)
Definition tensor_2x2_property : pyobj :=
  instance {[ "extents" := PyList [PyInt 2; PyInt 2];
              "data" := PyCapsule 4096 ]}.

(** A tensor object without [extents] but with [data]. *)
Definition tensor_shapeless : pyobj :=
  instance {[ "data" := method (fun _ => Ok (PyInt 4096)) ]}.

(** A tensor whose element count does not fit [size_t]. *)
Definition tensor_huge : pyobj :=
  instance {[ "extents" := PyList [PyInt (2 ^ 32); PyInt (2 ^ 32)] ]}.

(** A tensor whose [data] is a callable instance of a registered type and
    whose call raises an ordinary runtime error. *)
Definition data_raising : pyobj :=
  PyInst ∅ (Some (fun _ => Err (PyExn "RuntimeError" "device lost")))
         (Some 4096).
Definition tensor_data_raising : pyobj :=
  instance {[ "extents" := PyList [PyInt 2; PyInt 2];
              "data" := data_raising ]}.

(** A tensor whose [data] is an ordinary bound method that raises. *)
Definition tensor_data_failing : pyobj :=
  instance {[ "extents" := PyList [PyInt 2; PyInt 2];
              "data" := method (fun _ => Err (PyExn "RuntimeError" "device lost")) ]}.

(** A handle that exposes nothing. *)
Definition handle_bare : pyobj := instance ∅.

(** A handle with [getTensor] only. *)
Definition handle_single_only : pyobj :=
  instance {[ "getTensor" := method1 (fun _ => Ok tensor_2x2) ]}.

(** A handle with [getTensors] only; the network has three tensors. *)
Definition handle_whole_only : pyobj :=
  instance {[ "getTensors" :=
                method (fun _ => Ok (PyList [tensor_2x2; tensor_2x2; tensor_2x2])) ]}.

(** A network of five tensors; the accessor raises for index 2. *)
Definition handle_five : pyobj :=
  instance {[ "getTensor" :=
                method1 (fun i => if i =? 2
                                  then Err (ValueError "malformed tensor")
                                  else Ok tensor_2x2);
              "getTensors" :=
                method (fun _ => Ok (PyList [PyNone; PyNone; PyNone; PyNone; PyNone])) ]}.

(** A handle serving one tensor object at every index. *)
Definition handle_of (tensor_obj : pyobj) : pyobj :=
  instance {[ "getTensor" := method1 (fun _ => Ok tensor_obj) ]}.

Definition bytes_at (base : Z) (bs : list byte) : gmap Z byte :=
  list_to_map (imap (fun i b => (base + Z.of_nat i, b)) bs).

Definition sample_bytes : list byte :=
  map (fun i => default Byte.x00 (Byte.of_nat i)) (seq 1 64).

(** A healthy device holding 64 bytes at address 4096. *)
Definition machine_ok : machine :=
  {| gpu_mem := bytes_at 4096 sample_bytes; gpu_sticky := 0;
     cuda_last_error := 0; heap_noise := fun _ => Byte.xff |}.

(** The same device content seen later: other heap contents, another
    last error. *)
Definition machine_ok_later : machine :=
  {| gpu_mem := bytes_at 4096 sample_bytes; gpu_sticky := 0;
     cuda_last_error := 1; heap_noise := fun _ => Byte.xaa |}.

(** A device on which only the first 40 bytes are mapped. *)
Definition machine_short : machine :=
  {| gpu_mem := bytes_at 4096 (take 40 sample_bytes); gpu_sticky := 0;
     cuda_last_error := 0; heap_noise := fun _ => Byte.xff |}.

(** A device with a pending illegal-address fault. *)
Definition machine_faulty : machine :=
  {| gpu_mem := bytes_at 4096 sample_bytes;
     gpu_sticky := cudaErrorIllegalAddress;
     cuda_last_error := 0; heap_noise := fun _ => Byte.xff |}.

(** A tensor of rank zero: its shape is the empty list. *)
Definition tensor_scalar : pyobj :=
  instance {[ "extents" := PyList [] ]}.

(** A handle that reports five qubits. *)
Definition handle_qubits : pyobj :=
  instance {[ "num_qubits" := method (fun _ => Ok (PyInt 5)) ]}.

(** A handle whose qubit accessor raises. *)
Definition handle_qubits_raising : pyobj :=
  instance {[ "num_qubits" := method (fun _ => Err (ValueError "state destroyed")) ]}.

(** A handle whose whole-network accessor raises. *)
Definition handle_whole_raising : pyobj :=
  instance {[ "getTensors" := method (fun _ => Err (ValueError "state destroyed")) ]}.

(** A handle whose network is present but not enumerable. *)
Definition handle_whole_opaque : pyobj :=
  instance {[ "getTensor" := method1 (fun _ => Ok tensor_2x2);
              "getTensors" := method (fun _ => Ok PyNone) ]}.

(** A tensor with a negative entry in its shape. *)
Definition tensor_negative : pyobj :=
  instance {[ "extents" := PyList [PyInt 2; PyInt (-1)];
              "data" := PyCapsule 4096 ]}.

(** A tensor with shape but without [data]. *)
Definition tensor_no_data : pyobj :=
  instance {[ "extents" := PyList [PyInt 2; PyInt 2] ]}.

(** A tensor with a zero-size dimension and no valid data pointer. *)
Definition tensor_empty : pyobj :=
  instance {[ "extents" := PyList [PyInt 3; PyInt 0; PyInt 4];
              "data" := PyNone ]}.

(** A [2 x 2] tensor whose [data] method returns a capsule. *)
Definition tensor_2x2_capsule : pyobj :=
  instance {[ "extents" := PyList [PyInt 2; PyInt 2];
              "data" := method (fun _ => Ok (PyCapsule 4096)) ]}.

(** A tensor of [2^30 x 2^30] elements: too large for any host array. *)
Definition tensor_oversized : pyobj :=
  instance {[ "extents" := PyList [PyInt (2 ^ 30); PyInt (2 ^ 30)];
              "data" := PyCapsule 4096 ]}.

(** A network of three tensors, all well-formed. *)
Definition handle_three : pyobj :=
  instance {[ "getTensor" := method1 (fun _ => Ok tensor_2x2);
              "getTensors" := method (fun _ => Ok (PyList [PyNone; PyNone; PyNone])) ]}.

End Examples.

(** * Properties *)

(** ** Arithmetic of sizes *)

Section SizeArithmetic.

Lemma wrap_range z : is_size_t (Word.wrap z).
Proof. unfold is_size_t, Word.wrap, Word.SIZE_MAX1. apply Z.mod_pos_bound. lia. Qed.

Lemma wrap_small z : is_size_t z -> Word.wrap z = z.
Proof. unfold is_size_t, Word.wrap. intros H. apply Z.mod_small. exact H. Qed.

(** The running product of the loop agrees with the product modulo the
    word size, whatever the starting value. *)
Lemma mul_dims_acc (dims : list Z) : forall acc,
  Word.wrap (fold_left (fun total dim => Word.wrap (total * dim)) dims acc)
  = Word.wrap (acc * product dims).
Proof.
  induction dims as [|d dims IH]; intros acc; simpl.
  - f_equal. lia.
  - rewrite IH. unfold Word.wrap, Word.SIZE_MAX1.
    rewrite Z.mul_mod_idemp_l by lia. f_equal. lia.
Qed.

Lemma mul_dims_range (dims : list Z) : is_size_t (mul_dims dims).
Proof.
  unfold mul_dims.
  assert (H : forall acc, is_size_t acc ->
            is_size_t (fold_left (fun total dim => Word.wrap (total * dim)) dims acc)).
  { induction dims as [|d dims IH]; intros acc Hacc; simpl; [exact Hacc|].
    apply IH, wrap_range. }
  apply H. unfold is_size_t, Word.SIZE_MAX1. lia.
Qed.

Lemma mul_dims_product (dims : list Z) :
  mul_dims dims = Word.wrap (product dims).
Proof.
  rewrite <- (wrap_small (mul_dims dims)) by apply mul_dims_range.
  unfold mul_dims. rewrite mul_dims_acc. f_equal. lia.
Qed.

Lemma product_nonneg (dims : list Z) :
  Forall (fun d => 0 <= d) dims -> 0 <= product dims.
Proof.
  induction 1 as [|d dims Hd _ IH]; simpl; [lia|].
  apply Z.mul_nonneg_nonneg; assumption.
Qed.

End SizeArithmetic.

(** ** Casts *)

Section Casts.

Lemma cast_size_t_range o n : Pybind.cast_size_t o = Ok n -> is_size_t n.
Proof.
  destruct o as [|k| | | |]; simpl; try discriminate.
  destruct (Word.in_size_t k) eqn:E; simpl; [|discriminate].
  intros [= <-]. unfold Word.in_size_t in E.
  apply andb_true_iff in E as [E1 E2]. unfold is_size_t. lia.
Qed.

Lemma cast_items_range items : forall extents,
  Pybind.cast_items items = Ok extents -> Forall is_size_t extents.
Proof.
  induction items as [|o items IH]; simpl; intros extents H.
  - injection H as <-. constructor.
  - destruct (Pybind.cast_size_t o) as [n|] eqn:En; simpl in H; [|discriminate].
    destruct (Pybind.cast_items items) as [ns|] eqn:Ens; simpl in H; [|discriminate].
    injection H as <-. constructor; [eapply cast_size_t_range; eassumption|].
    apply IH. reflexivity.
Qed.

Lemma cast_vector_size_t_range o extents :
  Pybind.cast_vector_size_t o = Ok extents -> Forall is_size_t extents.
Proof.
  destruct o; simpl; try discriminate. apply cast_items_range.
Qed.

End Casts.

(** ** Probing and descriptors *)

Section Descriptors.

Lemma hasattr_exposes o name : Py.hasattr o name = true <-> exposes o name.
Proof.
  unfold Py.hasattr, exposes.
  destruct (Py.getattr o name); split; intros H;
    solve [done | by eexists | by destruct H].
Qed.

Lemma hasattr_false o name : Py.hasattr o name = false <-> ~ exposes o name.
Proof.
  rewrite <- hasattr_exposes. destruct (Py.hasattr o name); split; congruence.
Qed.

(** What [get_tensor_info] returns once the accessor has produced an
    object without [extents]. *)
Lemma get_tensor_info_shapeless state idx tensor_obj :
  Py.hasattr state "getTensor" = true ->
  Pybind.attr_call state "getTensor" [idx] = Ok tensor_obj ->
  Py.hasattr tensor_obj "extents" = false ->
  get_tensor_info state idx =
    Ok {| shape := []; total_elements := 0; size_bytes := 0;
          dtype := "unknown";
          device_ptr := if Py.hasattr tensor_obj "data" then 1 else 0 |}.
Proof.
  intros Hs Hc He. unfold get_tensor_info.
  rewrite Hs, Hc. simpl. rewrite He. simpl.
  destruct (Py.hasattr tensor_obj "data"); reflexivity.
Qed.

(** Every descriptor [get_tensor_info] returns satisfies the invariant. *)
Lemma get_tensor_info_inv state idx info :
  get_tensor_info state idx = Ok info -> descriptor_inv info.
Proof.
  unfold get_tensor_info.
  destruct (Py.hasattr state "getTensor"); simpl; [|discriminate].
  destruct (Pybind.attr_call state "getTensor" [idx]) as [tensor_obj|]; simpl;
    [|discriminate].
  destruct (Py.hasattr tensor_obj "extents").
  - destruct (Pybind.attr tensor_obj "extents") as [ext|]; simpl; [|discriminate].
    destruct (Pybind.cast_vector_size_t ext) as [extents|] eqn:Hcast; simpl;
      [|discriminate].
    apply cast_vector_size_t_range in Hcast.
    intros [= <-]. unfold descriptor_inv.
    destruct (Py.hasattr tensor_obj "data"); simpl;
      (split; [exact Hcast|]; split;
       [reflexivity | right; split; [reflexivity | apply mul_dims_product]]).
  - simpl. intros [= <-]. unfold descriptor_inv.
    destruct (Py.hasattr tensor_obj "data"); simpl;
      (split; [constructor|]; split; [reflexivity | left; done]).
Qed.

(** The loop appends, to what it was given, the descriptors of the
    succeeding indices among the next [fuel] ones. *)
Lemma all_tensors_loop_spec state : forall fuel i tensors,
  all_tensors_loop state (Z.of_nat i) fuel tensors =
    tensors ++ omap (fun k => ok_to_option (get_tensor_info state (Z.of_nat k)))
                    (seq i fuel).
Proof.
  induction fuel as [|fuel IH]; intros i tensors; simpl.
  - by rewrite app_nil_r.
  - replace (Z.of_nat i + 1) with (Z.of_nat (S i)) by lia.
    destruct (get_tensor_info state (Z.of_nat i)) as [info|e]; simpl.
    + rewrite IH, <- app_assoc. reflexivity.
    + apply IH.
Qed.

(** What [get_all_tensors_info] returns for an enumerable network. *)
Lemma get_all_tensors_info_enumerable state tensors_obj num_tensors :
  Py.hasattr state "getTensors" = true ->
  Pybind.attr_call state "getTensors" [] = Ok tensors_obj ->
  Py.hasattr tensors_obj "__len__" = true ->
  Pybind.len tensors_obj = Ok num_tensors ->
  get_all_tensors_info state =
    Ok (succeeding_descriptors state (Z.to_nat num_tensors)).
Proof.
  intros Hs Hc Hl Hn. unfold get_all_tensors_info.
  rewrite Hs, Hc. simpl. rewrite Hl, Hn. simpl.
  unfold ret. f_equal.
  apply (all_tensors_loop_spec state (Z.to_nat num_tensors) 0%nat []).
Qed.

(** The two shapes a successful batch result can have. *)
Lemma get_all_tensors_info_cases state infos :
  get_all_tensors_info state = Ok infos ->
  infos = [] \/ exists n, infos = succeeding_descriptors state n.
Proof.
  unfold get_all_tensors_info.
  destruct (Py.hasattr state "getTensors"); [|intros [= <-]; by left].
  destruct (Pybind.attr_call state "getTensors" []) as [tensors_obj|]; simpl;
    [|discriminate].
  destruct (Py.hasattr tensors_obj "__len__"); [|intros [= <-]; by left].
  destruct (Pybind.len tensors_obj) as [num|]; simpl; [|discriminate].
  intros [= <-]. right. exists (Z.to_nat num).
  apply (all_tensors_loop_spec state (Z.to_nat num) 0%nat []).
Qed.

(** Without [getTensor] every per-index call throws. *)
Lemma get_tensor_info_unsupported state idx :
  Py.hasattr state "getTensor" = false ->
  get_tensor_info state idx =
    Err (runtime_error "State object does not support getTensor()").
Proof. intros H. unfold get_tensor_info. by rewrite H. Qed.

Lemma succeeding_descriptors_unsupported state n :
  Py.hasattr state "getTensor" = false ->
  succeeding_descriptors state n = [].
Proof.
  intros H. unfold succeeding_descriptors.
  induction (seq 0 n) as [|k ks IH]; [reflexivity|].
  cbn. by rewrite (get_tensor_info_unsupported _ _ H).
Qed.

(** A returned descriptor was built from the object the accessor gave. *)
Lemma get_tensor_info_tensor state idx info :
  get_tensor_info state idx = Ok info ->
  exists tensor_obj, Pybind.attr_call state "getTensor" [idx] = Ok tensor_obj.
Proof.
  unfold get_tensor_info.
  destruct (Py.hasattr state "getTensor"); simpl; [|discriminate].
  destruct (Pybind.attr_call state "getTensor" [idx]) as [tensor_obj|]; simpl;
    [|discriminate].
  intros _. by exists tensor_obj.
Qed.

(** The sizes of a returned descriptor, read against the tensor object. *)
Lemma get_tensor_info_sizes state idx tensor_obj info :
  Pybind.attr_call state "getTensor" [idx] = Ok tensor_obj ->
  get_tensor_info state idx = Ok info ->
  descriptor_sizes_for tensor_obj info.
Proof.
  intros Hc. unfold get_tensor_info.
  destruct (Py.hasattr state "getTensor"); simpl; [|discriminate].
  rewrite Hc. simpl. unfold Py.hasattr at 1, Pybind.attr, descriptor_sizes_for, exposes.
  destruct (Py.getattr tensor_obj "extents") as [ext|] eqn:Hext; simpl.
  - destruct (Pybind.cast_vector_size_t ext) as [extents|] eqn:Hcast; simpl;
      [|discriminate].
    intros Hinfo.
    assert (shape info = extents /\ total_elements info = mul_dims extents /\
            size_bytes info = Word.wrap (mul_dims extents * 16))
      as (Hshape & Htotal & Hsize).
    { destruct (Py.hasattr tensor_obj "data"); by injection Hinfo as <-. }
    rewrite Hshape, Htotal, Hsize. clear Hinfo Hshape Htotal Hsize.
    split; [reflexivity|]. split.
    + intros ext' [= <-]. split; [exact Hcast|].
      split; [apply mul_dims_product|].
      intros Hfit. rewrite mul_dims_product.
      assert (0 <= product extents) as Hpos.
      { apply product_nonneg.
        eapply Forall_impl; [eapply cast_vector_size_t_range; eassumption|].
        unfold is_size_t. simpl. lia. }
      rewrite !wrap_small by (unfold is_size_t; lia). by split.
    + intros Hno. exfalso. apply Hno. by eexists.
  - intros Hinfo.
    assert (shape info = [] /\ total_elements info = 0 /\ size_bytes info = 0)
      as (Hshape & Htotal & Hsize).
    { destruct (Py.hasattr tensor_obj "data"); by injection Hinfo as <-. }
    rewrite Hshape, Htotal, Hsize.
    split; [reflexivity|]. split; [discriminate | done].
Qed.

End Descriptors.

(** ** The capability prober *)

Section Prober.

Import Examples.

(** C7.  [has_tensors] answers true exactly when the handle exposes
    [getTensor] or [getTensors].  It is a total boolean function: for a
    handle exposing neither accessor the answer is [false], and for a
    handle exposing exactly one of them the answer is [true]. *)
Theorem has_tensors_iff (state : pyobj) :
  (has_tensors state = true <->
     exposes state "getTensor" \/ exposes state "getTensors") /\
  (~ exposes state "getTensor" -> ~ exposes state "getTensors" ->
     has_tensors state = false) /\
  (exposes state "getTensor" -> ~ exposes state "getTensors" ->
     has_tensors state = true) /\
  (~ exposes state "getTensor" -> exposes state "getTensors" ->
     has_tensors state = true).
Proof.
  unfold has_tensors.
  rewrite <- !hasattr_exposes.
  destruct (Py.hasattr state "getTensors"), (Py.hasattr state "getTensor");
    simpl; intuition congruence.
Qed.

Lemma has_tensors_iff_witness :
  has_tensors handle_bare = false /\
  has_tensors handle_single_only = true /\
  has_tensors handle_whole_only = true.
Proof.
  split; [|split].
  - apply (proj1 (proj2 (has_tensors_iff handle_bare)));
      vm_compute; intros [? ?]; discriminate.
  - apply (proj1 (proj2 (proj2 (has_tensors_iff handle_single_only)))).
    + vm_compute. eexists. reflexivity.
    + vm_compute. intros [? ?]. discriminate.
  - apply (proj2 (proj2 (proj2 (has_tensors_iff handle_whole_only)))).
    + vm_compute. intros [? ?]. discriminate.
    + vm_compute. eexists. reflexivity.
Defined.

End Prober.

(** ** Per-tensor descriptors *)

Section TensorDescriptor.

Import Examples.

(** C8.  When the accessor call succeeds and the tensor object has no
    shape property, [get_tensor_info] does not throw: it returns a
    descriptor with an empty shape and zero elements whose
    data-available flag is the outcome of the probe for [data] alone. *)
Theorem get_tensor_info_no_shape (state : pyobj) (idx : Z) (tensor_obj : pyobj) :
  exposes state "getTensor" ->
  Pybind.attr_call state "getTensor" [idx] = Ok tensor_obj ->
  ~ exposes tensor_obj "extents" ->
  exists info,
    get_tensor_info state idx = Ok info /\
    shape info = [] /\
    total_elements info = 0 /\
    data_available info = Py.hasattr tensor_obj "data".
Proof.
  intros Hs Hc He.
  apply hasattr_exposes in Hs. apply hasattr_false in He.
  eexists. split; [apply (get_tensor_info_shapeless _ _ _ Hs Hc He)|].
  simpl. repeat split. by destruct (Py.hasattr tensor_obj "data").
Qed.

Lemma get_tensor_info_no_shape_witness :
  exists info,
    get_tensor_info (handle_of tensor_shapeless) 7 = Ok info /\
    shape info = [] /\
    total_elements info = 0 /\
    data_available info = true.
Proof.
  apply (get_tensor_info_no_shape (handle_of tensor_shapeless) 7 tensor_shapeless).
  - vm_compute. eexists. reflexivity.
  - vm_compute. reflexivity.
  - vm_compute. intros [? ?]. discriminate.
Defined.

(** C2, as the code has it.  For a tensor object reachable by index that
    has no shape property, the returned descriptor's data-available flag
    is true exactly when the object exposes the [data] capability. *)
Theorem get_tensor_info_no_shape_data_flag
    (state : pyobj) (idx : Z) (tensor_obj : pyobj) :
  exposes state "getTensor" ->
  Pybind.attr_call state "getTensor" [idx] = Ok tensor_obj ->
  ~ exposes tensor_obj "extents" ->
  exists info,
    get_tensor_info state idx = Ok info /\
    (data_available info = true <-> exposes tensor_obj "data").
Proof.
  intros Hs Hc He.
  apply hasattr_exposes in Hs. apply hasattr_false in He.
  eexists. split; [apply (get_tensor_info_shapeless _ _ _ Hs Hc He)|].
  rewrite <- hasattr_exposes.
  by destruct (Py.hasattr tensor_obj "data").
Qed.

Lemma get_tensor_info_no_shape_data_flag_witness :
  exists info,
    get_tensor_info (handle_of (instance ∅)) 0 = Ok info /\
    (data_available info = true <-> exposes (instance ∅) "data").
Proof.
  apply (get_tensor_info_no_shape_data_flag (handle_of (instance ∅)) 0 (instance ∅)).
  - vm_compute. eexists. reflexivity.
  - vm_compute. reflexivity.
  - vm_compute. intros [? ?]. discriminate.
Defined.

(** C2 as stated fails: a tensor object without shape but with [data]
    is reachable at index 0, and its descriptor is never one whose
    data-available flag is false. *)
Lemma data_flag_without_shape_counterexample :
  exposes (handle_of tensor_shapeless) "getTensor" /\
  Pybind.attr_call (handle_of tensor_shapeless) "getTensor" [0]
    = Ok tensor_shapeless /\
  ~ exposes tensor_shapeless "extents" /\
  ~ (exists info,
       get_tensor_info (handle_of tensor_shapeless) 0 = Ok info /\
       data_available info = false).
Proof.
  split; [vm_compute; eexists; reflexivity|].
  split; [vm_compute; reflexivity|].
  split; [vm_compute; intros [? ?]; discriminate|].
  intros (info & Hinfo & Hflag).
  vm_compute in Hinfo. injection Hinfo as <-. discriminate Hflag.
Qed.

(** C3, as the code has it.  Every descriptor returned by
    [get_tensor_info], and every descriptor in a sequence returned by
    [get_all_tensors_info], has [size_bytes = total_elements * 16] and, when
    the tensor object it was built from has a shape property,
    [total_elements = product shape] (the empty shape giving 1), both in
    64-bit unsigned arithmetic and hence exactly when sixteen times the
    product fits 64 bits; the descriptor of a tensor object without shape
    property has the empty shape with [total_elements = 0] and
    [size_bytes = 0]. *)
Theorem descriptor_sizes (state : pyobj) :
  (forall idx tensor_obj info,
     Pybind.attr_call state "getTensor" [idx] = Ok tensor_obj ->
     get_tensor_info state idx = Ok info ->
     descriptor_sizes_for tensor_obj info) /\
  (forall infos,
     get_all_tensors_info state = Ok infos ->
     Forall (fun info =>
               exists idx tensor_obj,
                 Pybind.attr_call state "getTensor" [idx] = Ok tensor_obj /\
                 get_tensor_info state idx = Ok info /\
                 descriptor_sizes_for tensor_obj info) infos).
Proof.
  split.
  - intros idx tensor_obj info. apply get_tensor_info_sizes.
  - intros infos H. apply get_all_tensors_info_cases in H as [->|[n ->]];
      [constructor|].
    unfold succeeding_descriptors. apply Forall_forall. intros info Hin.
    apply list_elem_of_omap in Hin as (k & _ & Hk).
    destruct (get_tensor_info state (Z.of_nat k)) as [info'|] eqn:E;
      simpl in Hk; [|discriminate].
    injection Hk as <-.
    destruct (get_tensor_info_tensor _ _ _ E) as [tensor_obj Hc].
    exists (Z.of_nat k), tensor_obj.
    split; [exact Hc|]. split; [exact E|].
    eapply get_tensor_info_sizes; eassumption.
Qed.

Lemma descriptor_sizes_witness :
  descriptor_sizes_for tensor_2x2 (mkTensorInfo [2; 2] 4 64 "complex128" 1) /\
  descriptor_sizes_for tensor_scalar (mkTensorInfo [] 1 16 "complex128" 0) /\
  descriptor_sizes_for tensor_shapeless (mkTensorInfo [] 0 0 "unknown" 1) /\
  Forall (fun info =>
            exists idx tensor_obj,
              Pybind.attr_call handle_five "getTensor" [idx] = Ok tensor_obj /\
              get_tensor_info handle_five idx = Ok info /\
              descriptor_sizes_for tensor_obj info)
         (succeeding_descriptors handle_five 5).
Proof.
  split; [|split; [|split]].
  - apply (proj1 (descriptor_sizes handle_single_only) 0);
      vm_compute; reflexivity.
  - apply (proj1 (descriptor_sizes (handle_of tensor_scalar)) 0);
      vm_compute; reflexivity.
  - apply (proj1 (descriptor_sizes (handle_of tensor_shapeless)) 0);
      vm_compute; reflexivity.
  - apply (proj2 (descriptor_sizes handle_five)). vm_compute. reflexivity.
Defined.

(** C3 as stated fails: the descriptor of a tensor object without shape
    property has the empty shape, whose product is 1, and zero elements;
    and for a shape whose product is [2^64] the element count wraps to 0. *)
Lemma descriptor_sizes_counterexample :
  (exists info,
     get_tensor_info (handle_of tensor_shapeless) 0 = Ok info /\
     shape info = [] /\
     total_elements info <> product (shape info)) /\
  (exists info,
     get_tensor_info (handle_of tensor_huge) 0 = Ok info /\
     total_elements info <> product (shape info)).
Proof.
  split; eexists; (split; [vm_compute; reflexivity|]); simpl.
  - split; [reflexivity|]. vm_compute. discriminate.
  - vm_compute. discriminate.
Qed.

End TensorDescriptor.

(** ** The batch operation *)

Section Batch.

Import Examples.

(** C1, as the code has it.  For a handle that does not expose
    [getTensors], [get_all_tensors_info] does not throw: it returns the
    empty sequence. *)
Theorem get_all_tensors_info_without_getTensors (state : pyobj) :
  ~ exposes state "getTensors" ->
  get_all_tensors_info state = Ok [].
Proof.
  intros H. apply hasattr_false in H.
  unfold get_all_tensors_info. by rewrite H.
Qed.

Lemma get_all_tensors_info_without_getTensors_witness :
  get_all_tensors_info handle_single_only = Ok [].
Proof.
  apply (get_all_tensors_info_without_getTensors handle_single_only).
  vm_compute. intros [? ?]. discriminate.
Defined.

(** C1 as stated fails: a handle with [getTensor] only does not expose
    [getTensors], and the batch operation on it raises nothing. *)
Lemma get_all_tensors_info_unsupported_counterexample :
  ~ exposes handle_single_only "getTensors" /\
  ~ (exists e, get_all_tensors_info handle_single_only = Err e).
Proof.
  split.
  - vm_compute. intros [? ?]. discriminate.
  - intros [e He]. vm_compute in He. discriminate He.
Qed.

(** C6.  For a handle whose [getTensors] returns a collection of length
    [n], [get_all_tensors_info] does not throw and returns exactly the
    descriptors of the indices below [n] at which [get_tensor_info]
    succeeds, in index order.  In particular, when [n = 5] and index 2 is
    the only failing one, the result has exactly 4 entries. *)
Theorem get_all_tensors_info_skips_failures
    (state tensors_obj : pyobj) (n : nat) :
  exposes state "getTensors" ->
  Pybind.attr_call state "getTensors" [] = Ok tensors_obj ->
  exposes tensors_obj "__len__" ->
  Pybind.len tensors_obj = Ok (Z.of_nat n) ->
  get_all_tensors_info state = Ok (succeeding_descriptors state n) /\
  (n = 5%nat ->
   (forall i, (i < 5)%nat ->
      (exists e, get_tensor_info state (Z.of_nat i) = Err e) <-> i = 2%nat) ->
   length (succeeding_descriptors state n) = 4%nat).
Proof.
  intros Hs Hc Hl Hn.
  apply hasattr_exposes in Hs. apply hasattr_exposes in Hl.
  split.
  - rewrite (get_all_tensors_info_enumerable _ _ _ Hs Hc Hl Hn).
    by rewrite Nat2Z.id.
  - intros -> Hfail. unfold succeeding_descriptors. cbn [seq omap list_omap].
    assert (forall i, (i < 5)%nat -> i <> 2%nat ->
              exists info, get_tensor_info state (Z.of_nat i) = Ok info) as Hok.
    { intros i Hi Hne.
      destruct (get_tensor_info state (Z.of_nat i)) as [info|e] eqn:E;
        [by eexists|].
      exfalso. apply Hne, (Hfail i Hi). by eexists. }
    destruct (proj2 (Hfail 2%nat ltac:(lia)) eq_refl) as [e2 E2].
    destruct (Hok 0%nat ltac:(lia) ltac:(lia)) as [i0 E0].
    destruct (Hok 1%nat ltac:(lia) ltac:(lia)) as [i1 E1].
    destruct (Hok 3%nat ltac:(lia) ltac:(lia)) as [i3 E3].
    destruct (Hok 4%nat ltac:(lia) ltac:(lia)) as [i4 E4].
    rewrite E0, E1, E2, E3, E4. reflexivity.
Qed.

Lemma get_all_tensors_info_skips_failures_witness :
  get_all_tensors_info handle_five = Ok (succeeding_descriptors handle_five 5) /\
  length (succeeding_descriptors handle_five 5) = 4%nat.
Proof.
  destruct (get_all_tensors_info_skips_failures handle_five
              (PyList [PyNone; PyNone; PyNone; PyNone; PyNone]) 5) as [H1 H2].
  - vm_compute. eexists. reflexivity.
  - vm_compute. reflexivity.
  - vm_compute. eexists. reflexivity.
  - vm_compute. reflexivity.
  - split; [exact H1|]. apply H2; [reflexivity|].
    intros i Hi.
    destruct i as [|[|[|[|[|i]]]]]; try lia;
      (split; [intros [e He]; vm_compute in He; congruence
              | intros Hi2; try discriminate Hi2; vm_compute; eexists; reflexivity]).
Defined.

(** C10.  For a handle whose [getTensors] returns a collection with a
    length but which does not expose [getTensor], every per-index
    descriptor call throws, and [get_all_tensors_info] swallows each of
    them: it returns the empty sequence. *)
Theorem get_all_tensors_info_without_getTensor
    (state tensors_obj : pyobj) (num_tensors : Z) :
  exposes state "getTensors" ->
  Pybind.attr_call state "getTensors" [] = Ok tensors_obj ->
  exposes tensors_obj "__len__" ->
  Pybind.len tensors_obj = Ok num_tensors ->
  ~ exposes state "getTensor" ->
  get_all_tensors_info state = Ok [] /\
  (forall idx, exists e, get_tensor_info state idx = Err e).
Proof.
  intros Hs Hc Hl Hn Hg.
  apply hasattr_exposes in Hs. apply hasattr_exposes in Hl.
  apply hasattr_false in Hg.
  split.
  - rewrite (get_all_tensors_info_enumerable _ _ _ Hs Hc Hl Hn).
    by rewrite (succeeding_descriptors_unsupported _ _ Hg).
  - intros idx. eexists. by apply get_tensor_info_unsupported.
Qed.

Lemma get_all_tensors_info_without_getTensor_witness :
  get_all_tensors_info handle_whole_only = Ok [] /\
  (forall idx, exists e, get_tensor_info handle_whole_only idx = Err e).
Proof.
  apply (get_all_tensors_info_without_getTensor handle_whole_only
           (PyList [tensor_2x2; tensor_2x2; tensor_2x2]) 3).
  - vm_compute. eexists. reflexivity.
  - vm_compute. reflexivity.
  - vm_compute. eexists. reflexivity.
  - vm_compute. reflexivity.
  - vm_compute. intros [? ?]. discriminate.
Defined.

End Batch.

(** ** Resolving the device pointer *)

Section DevicePointer.

Import Examples.

Lemma cast_size_t_no_pyerr o e :
  Pybind.cast_size_t o <> Err (error_already_set e).
Proof.
  destruct o as [|n| | | |]; simpl; try discriminate.
  destruct (Word.in_size_t n); discriminate.
Qed.

Lemma cast_void_ptr_no_pyerr o e :
  Pybind.cast_void_ptr o <> Err (error_already_set e).
Proof.
  destruct o as [| | | | |attrs body [addr|]]; simpl; discriminate.
Qed.

(** A computation that throws no Python error passes through the inner
    handler untouched. *)
Lemma try_catch_pyerr_pass {A} (body handler : cpp A) :
  (forall e, body <> Err (error_already_set e)) ->
  try_catch_pyerr body handler = body.
Proof.
  intros H. destruct body as [a|[| | |e]]; try reflexivity.
  exfalso. by apply (H e).
Qed.

(** C4, as the code has it.  The device-pointer resolution first invokes
    [data] as a callable.  When the invocation returns, its result alone
    decides the outcome (an integer is cast as an address, anything else
    as a pointer), also when that cast fails.  When the invocation raises
    any Python exception, whether a rejection of the call or a failure
    inside it, the resolution falls back to reading [data] as a plain
    property. *)
Theorem resolve_device_ptr_fallback (tensor_obj data_attr : pyobj) :
  Py.getattr tensor_obj "data" = Some data_attr ->
  (forall r, Py.call data_attr [] = Ok r ->
     resolve_device_ptr tensor_obj =
       if Py.is_int r then Pybind.cast_size_t r else Pybind.cast_void_ptr r) /\
  (forall e, Py.call data_attr [] = Err e ->
     resolve_device_ptr tensor_obj = Pybind.cast_void_ptr data_attr).
Proof.
  intros Hattr. unfold resolve_device_ptr, Pybind.attr_call, Pybind.attr.
  rewrite Hattr. simpl. split.
  - intros r Hr. rewrite Hr. simpl. apply try_catch_pyerr_pass.
    intros e. destruct (Py.is_int r);
      [apply cast_size_t_no_pyerr | apply cast_void_ptr_no_pyerr].
  - intros e He. rewrite He. reflexivity.
Qed.

Lemma resolve_device_ptr_fallback_witness :
  resolve_device_ptr tensor_2x2 = Ok 4096 /\
  resolve_device_ptr tensor_2x2_property = Ok 4096.
Proof.
  split.
  - apply (proj1 (resolve_device_ptr_fallback tensor_2x2
                    (method (fun _ => Ok (PyInt 4096))) eq_refl)
             (PyInt 4096)).
    reflexivity.
  - apply (proj2 (resolve_device_ptr_fallback tensor_2x2_property
                    (PyCapsule 4096) eq_refl)
             (TypeError "object is not callable")).
    reflexivity.
Defined.

(** C4 as stated fails: here [data] is callable and the call itself
    raises a runtime error, yet the resolution does not surface that
    failure; it reads the property instead and answers with what the
    property read yields. *)
Lemma resolve_device_ptr_generic_failure_counterexample :
  (Py.getattr tensor_data_raising "data" = Some data_raising /\
   Py.call data_raising [] = Err (PyExn "RuntimeError" "device lost") /\
   resolve_device_ptr tensor_data_raising = Ok 4096) /\
  (Pybind.attr_call tensor_data_failing "data" []
     = Err (error_already_set (PyExn "RuntimeError" "device lost")) /\
   resolve_device_ptr tensor_data_failing = Err (cast_error Pybind.cast_msg)).
Proof. repeat split; vm_compute; reflexivity. Qed.

End DevicePointer.

(** ** The device-to-host transfer *)

Section Transfer.

Lemma dev_read_length mem : forall n src bs,
  dev_read mem src n = (bs, true) -> length bs = n.
Proof.
  induction n as [|n IH]; simpl; intros src bs H.
  - by injection H as <-.
  - destruct (mem !! src) as [b|]; [|discriminate].
    destruct (dev_read mem (src + 1) n) as [bs' c] eqn:E.
    injection H as <- ->. simpl. f_equal. eapply IH; eassumption.
Qed.

Lemma vector_max_size_val : vector_max_size = 2 ^ 59 - 1.
Proof. reflexivity. Qed.

(** A shape NumPy accepts has no negative entry and a byte size that
    fits [ssize_t]. *)
Lemma npy_check_dims_ok : forall dims nbytes r,
  0 < nbytes <= Word.SSIZE_MAX ->
  npy_check_dims dims nbytes = Ok r ->
  Forall (fun d => 0 <= d) dims /\
  0 <= nbytes * product dims <= Word.SSIZE_MAX.
Proof.
  induction dims as [|d dims IH]; simpl; intros nbytes r Hnb H.
  - split; [constructor | lia].
  - destruct (Z.eqb_spec d 0) as [->|Hd0].
    + destruct (IH _ _ Hnb H) as [HF _].
      split; [constructor; [lia | exact HF]|]. unfold Word.SSIZE_MAX. lia.
    + destruct (Z.ltb_spec d 0) as [|Hd]; [discriminate|].
      rewrite Z.gtb_ltb in H.
      destruct (Z.ltb_spec Word.SSIZE_MAX (nbytes * d)) as [|Hfit]; [discriminate|].
      assert (0 < nbytes * d <= Word.SSIZE_MAX) as Hnb' by nia.
      destruct (IH _ _ Hnb' H) as [HF Hb].
      split; [constructor; [exact Hd | exact HF]|].
      rewrite Z.mul_assoc. exact Hb.
Qed.

(** On accepted shapes the conversion to [ssize_t] changes nothing. *)
Lemma to_ssize_nonneg (extents : list Z) :
  Forall is_size_t extents ->
  Forall (fun d => 0 <= d) (map Word.to_ssize extents) ->
  map Word.to_ssize extents = extents.
Proof.
  induction 1 as [|d extents Hd _ IH]; simpl; intros Hpos; [reflexivity|].
  inversion Hpos as [|? ? Hd' Hrest]; subst.
  rewrite (IH Hrest). f_equal.
  unfold Word.to_ssize, is_size_t, Word.SIZE_MAX1, Word.SSIZE_MAX in *.
  destruct (Z.leb_spec d (2 ^ 63 - 1)); lia.
Qed.

(** For a shape NumPy accepts, nothing wrapped on the way. *)
Lemma accepted_shape (extents : list Z) (r : Z) :
  Forall is_size_t extents ->
  npy_check_dims (map Word.to_ssize extents) Word.sizeof_complex_double = Ok r ->
  map Word.to_ssize extents = extents /\
  mul_dims extents = product extents /\
  0 <= Word.sizeof_complex_double * product extents <= Word.SSIZE_MAX.
Proof.
  intros Hrange Hcheck.
  apply npy_check_dims_ok in Hcheck as [Hpos Hfit];
    [|unfold Word.sizeof_complex_double, Word.SSIZE_MAX; lia].
  rewrite (to_ssize_nonneg _ Hrange Hpos) in *.
  split; [reflexivity|]. split; [|exact Hfit].
  rewrite mul_dims_product. apply wrap_small.
  pose proof (product_nonneg _ Hpos).
  unfold is_size_t, Word.SIZE_MAX1, Word.SSIZE_MAX,
    Word.sizeof_complex_double in *. lia.
Qed.

(** The outcome of the transfer in closed form.  It depends on the
    machine through the device content only, and a returned array holds
    exactly the bytes read from the device. *)
Lemma transfer_spec (extents : list Z) (device_ptr : Z) (m : machine) :
  Forall is_size_t extents ->
  transfer extents device_ptr m =
    if mul_dims extents >? vector_max_size then
      (Err (length_error "cannot create std::vector larger than max_size()"), m)
    else if negb (gpu_sticky m =? cudaSuccess) then
      (Err (runtime_error
              ("CUDA memcpy failed: " +:+ cudaGetErrorString (gpu_sticky m))),
       record_error (gpu_sticky m) m)
    else
      match dev_read (gpu_mem m) device_ptr
              (Z.to_nat (mul_dims extents * Word.sizeof_complex_double)) with
      | (_, false) =>
          (Err (runtime_error
                  ("CUDA memcpy failed: " +:+
                   cudaGetErrorString cudaErrorInvalidValue)),
           record_error cudaErrorInvalidValue m)
      | (bs, true) =>
          match npy_check_dims (map Word.to_ssize extents)
                  Word.sizeof_complex_double with
          | Err e => (Err (error_already_set e), m)
          | Ok _ =>
              (Ok {| nd_shape := extents; nd_data := bs |},
               consume_heap (length bs) m)
          end
      end.
Proof.
  intros Hrange. unfold transfer, mbind, lift, vector_new.
  destruct (mul_dims extents >? vector_max_size) eqn:Emax; simpl; [reflexivity|].
  assert (Word.wrap (mul_dims extents * Word.sizeof_complex_double)
          = mul_dims extents * Word.sizeof_complex_double) as Hcount.
  { apply wrap_small. pose proof (mul_dims_range extents) as Hr.
    rewrite Z.gtb_ltb in Emax. apply Z.ltb_ge in Emax.
    rewrite vector_max_size_val in Emax.
    unfold is_size_t, Word.SIZE_MAX1, Word.sizeof_complex_double in *. lia. }
  rewrite Hcount. unfold cudaMemcpy_DeviceToHost.
  destruct (negb (gpu_sticky m =? cudaSuccess)) eqn:Esticky; simpl.
  { rewrite Esticky. reflexivity. }
  destruct (dev_read (gpu_mem m) device_ptr
              (Z.to_nat (mul_dims extents * Word.sizeof_complex_double)))
    as [bs complete] eqn:Eread.
  destruct complete; simpl; [|reflexivity].
  apply dev_read_length in Eread.
  unfold array_new.
  destruct (npy_check_dims (map Word.to_ssize extents) Word.sizeof_complex_double)
    as [r|e] eqn:Echeck; [|reflexivity].
  destruct (accepted_shape _ _ Hrange Echeck) as (Hshape & Htotal & Hfit).
  rewrite Hshape, Htotal in *.
  replace (Z.to_nat (Word.sizeof_complex_double * product extents))
    with (length bs) by (rewrite Eread; f_equal; lia).
  unfold mret, consume_heap. simpl. f_equal. f_equal.
  unfold memcpy. rewrite <- Eread.
  rewrite drop_ge by (rewrite length_replicate; lia).
  rewrite app_nil_r, firstn_all.
  rewrite drop_ge by (rewrite length_map, length_seq; lia).
  by rewrite app_nil_r.
Qed.

Lemma locate_tensor_range state idx extents device_ptr :
  locate_tensor state idx = Ok (extents, device_ptr) ->
  Forall is_size_t extents.
Proof.
  unfold locate_tensor.
  destruct (Pybind.attr_call state "getTensor" [idx]) as [tensor_obj|]; simpl;
    [|discriminate].
  destruct (Py.hasattr tensor_obj "data" && Py.hasattr tensor_obj "extents");
    [|discriminate].
  destruct (Pybind.attr tensor_obj "extents") as [ext|]; simpl; [|discriminate].
  destruct (Pybind.cast_vector_size_t ext) as [extents'|] eqn:Hcast; simpl;
    [|discriminate].
  destruct (resolve_device_ptr tensor_obj) as [ptr|]; simpl; [|discriminate].
  intros [= <- _]. eapply cast_vector_size_t_range. eassumption.
Qed.

(** [extract_tensor_data] is the introspection followed by the transfer,
    inside the outer handler. *)
Lemma extract_tensor_data_split state idx m :
  Py.hasattr state "getTensor" = true ->
  extract_tensor_data state idx m =
    match locate_tensor state idx with
    | Err e => (Err (extraction_failure e), m)
    | Ok (extents, device_ptr) =>
        match transfer extents device_ptr m with
        | (Ok arr, m') => (Ok arr, m')
        | (Err e, m') => (Err (extraction_failure e), m')
        end
    end.
Proof.
  intros Hs. unfold extract_tensor_data, locate_tensor. rewrite Hs. simpl.
  unfold mtry_catch_std, mbind, lift.
  destruct (Pybind.attr_call state "getTensor" [idx]) as [tensor_obj|]; simpl;
    [|reflexivity].
  destruct (Py.hasattr tensor_obj "data" && Py.hasattr tensor_obj "extents");
    [|reflexivity].
  destruct (Pybind.attr tensor_obj "extents") as [ext|]; simpl; [|reflexivity].
  destruct (Pybind.cast_vector_size_t ext) as [extents|]; simpl; [|reflexivity].
  destruct (resolve_device_ptr tensor_obj) as [ptr|]; simpl; [|reflexivity].
  reflexivity.
Qed.

Lemma extract_tensor_data_unsupported state idx m :
  Py.hasattr state "getTensor" = false ->
  extract_tensor_data state idx m =
    (Err (runtime_error "State object does not support getTensor()"), m).
Proof. intros Hs. unfold extract_tensor_data. by rewrite Hs. Qed.

Lemma same_device_refl m : same_device m m.
Proof. by split. Qed.

(** The transfer reads the device and leaves its content as it was; its
    outcome is the same on machines with the same device content. *)
Lemma transfer_same_device extents device_ptr m1 m2 :
  Forall is_size_t extents ->
  same_device m1 m2 ->
  fst (transfer extents device_ptr m1) = fst (transfer extents device_ptr m2) /\
  same_device (snd (transfer extents device_ptr m1)) m1.
Proof.
  intros Hrange [Hmem Hsticky].
  rewrite !transfer_spec by exact Hrange. rewrite Hmem, Hsticky.
  destruct (mul_dims extents >? vector_max_size); [by split|].
  destruct (negb (gpu_sticky m2 =? cudaSuccess)); [by split|].
  destruct (dev_read (gpu_mem m2) device_ptr _) as [bs [|]]; [|by split].
  destruct (npy_check_dims _ _); by split.
Qed.

End Transfer.

(** ** Host copies *)

Section HostCopy.

Import Examples.

(** C5.  When the device-to-host transfer of an [extract_tensor_data]
    call reports a failure, the call throws a runtime error whose text
    ends with the error string the device runtime gives for that status,
    whatever the transfer left in the host buffer.  And whenever the call
    returns an array, the array is complete: it has the resolved shape and
    holds exactly the [16 * product shape] bytes of device memory that
    start at the resolved pointer. *)
Theorem extract_tensor_data_all_or_nothing (state : pyobj) (idx : Z) (m : machine) :
  (forall extents device_ptr host_data err buf m',
     exposes state "getTensor" ->
     locate_tensor state idx = Ok (extents, device_ptr) ->
     vector_new (mul_dims extents) = Ok host_data ->
     cudaMemcpy_DeviceToHost host_data device_ptr
       (Word.wrap (mul_dims extents * Word.sizeof_complex_double)) m
       = (Ok (err, buf), m') ->
     err <> cudaSuccess ->
     extract_tensor_data state idx m =
       (Err (runtime_error
               ("Failed to extract tensor data: CUDA memcpy failed: " +:+
                cudaGetErrorString err)), m')) /\
  (forall arr,
     fst (extract_tensor_data state idx m) = Ok arr ->
     exists device_ptr,
       locate_tensor state idx = Ok (nd_shape arr, device_ptr) /\
       length (nd_data arr)
         = Z.to_nat (Word.sizeof_complex_double * product (nd_shape arr)) /\
       dev_read (gpu_mem m) device_ptr (length (nd_data arr))
         = (nd_data arr, true)).
Proof.
  split.
  - intros extents device_ptr host_data err buf m' Hs Hloc Hvec Hcopy Herr.
    apply hasattr_exposes in Hs.
    rewrite (extract_tensor_data_split _ _ _ Hs), Hloc.
    unfold transfer, mbind, lift. rewrite Hvec, Hcopy.
    destruct (Z.eqb_spec err cudaSuccess) as [|_]; [contradiction|].
    reflexivity.
  - intros arr Harr.
    destruct (Py.hasattr state "getTensor") eqn:Hs;
      [|rewrite (extract_tensor_data_unsupported _ _ _ Hs) in Harr;
        discriminate].
    rewrite (extract_tensor_data_split _ _ _ Hs) in Harr.
    destruct (locate_tensor state idx) as [[extents device_ptr]|] eqn:Hloc;
      [|discriminate].
    pose proof (locate_tensor_range _ _ _ _ Hloc) as Hrange.
    rewrite (transfer_spec _ _ _ Hrange) in Harr.
    destruct (mul_dims extents >? vector_max_size); [discriminate|].
    destruct (negb (gpu_sticky m =? cudaSuccess)); [discriminate|].
    destruct (dev_read (gpu_mem m) device_ptr _) as [bs [|]] eqn:Hread;
      [|discriminate].
    destruct (npy_check_dims _ _) as [r|] eqn:Hcheck; [|discriminate].
    simpl in Harr. injection Harr as <-. simpl.
    destruct (accepted_shape _ _ Hrange Hcheck) as (_ & Htotal & _).
    pose proof (dev_read_length _ _ _ _ Hread) as Hlen.
    exists device_ptr. split; [reflexivity|]. split.
    + rewrite Hlen, Htotal. f_equal. lia.
    + rewrite Hlen. exact Hread.
Qed.

Lemma extract_tensor_data_all_or_nothing_witness :
  extract_tensor_data handle_single_only 0 machine_short =
    (Err (runtime_error
            "Failed to extract tensor data: CUDA memcpy failed: invalid argument"),
     record_error cudaErrorInvalidValue machine_short) /\
  extract_tensor_data handle_single_only 0 machine_faulty =
    (Err (runtime_error
            "Failed to extract tensor data: CUDA memcpy failed: an illegal memory access was encountered"),
     record_error cudaErrorIllegalAddress machine_faulty) /\
  exists device_ptr,
    locate_tensor handle_single_only 0 = Ok ([2; 2], device_ptr) /\
    length sample_bytes = Z.to_nat (16 * product [2; 2]) /\
    dev_read (gpu_mem machine_ok) device_ptr (length sample_bytes)
      = (sample_bytes, true).
Proof.
  split; [|split].
  - apply (proj1 (extract_tensor_data_all_or_nothing handle_single_only 0 machine_short)
             [2; 2] 4096 (replicate 64 Byte.x00) cudaErrorInvalidValue
             (take 40 sample_bytes ++ replicate 24 Byte.x00)).
    + vm_compute. eexists. reflexivity.
    + vm_compute. reflexivity.
    + vm_compute. reflexivity.
    + vm_compute. reflexivity.
    + vm_compute. discriminate.
  - apply (proj1 (extract_tensor_data_all_or_nothing handle_single_only 0 machine_faulty)
             [2; 2] 4096 (replicate 64 Byte.x00) cudaErrorIllegalAddress
             (replicate 64 Byte.x00)).
    + vm_compute. eexists. reflexivity.
    + vm_compute. reflexivity.
    + vm_compute. reflexivity.
    + vm_compute. reflexivity.
    + vm_compute. discriminate.
  - apply (proj2 (extract_tensor_data_all_or_nothing handle_single_only 0 machine_ok)
             {| nd_shape := [2; 2]; nd_data := sample_bytes |}).
    vm_compute. reflexivity.
Defined.

(** C9.  [extract_tensor_data] leaves the device content as it found it,
    and its outcome depends on the machine through the device content
    only: a call on any machine with the same device content, and in
    particular a second call right after the first, yields the same
    outcome, byte for byte. *)
Theorem extract_tensor_data_repeatable (state : pyobj) (idx : Z) (m : machine) :
  same_device (snd (extract_tensor_data state idx m)) m /\
  (forall m', same_device m' m ->
     fst (extract_tensor_data state idx m') = fst (extract_tensor_data state idx m)) /\
  fst (extract_tensor_data state idx (snd (extract_tensor_data state idx m)))
    = fst (extract_tensor_data state idx m).
Proof.
  assert (forall m1 m2, same_device m1 m2 ->
            fst (extract_tensor_data state idx m1)
              = fst (extract_tensor_data state idx m2) /\
            same_device (snd (extract_tensor_data state idx m1)) m1) as Hstep.
  { intros m1 m2 Hsame.
    destruct (Py.hasattr state "getTensor") eqn:Hs.
    - rewrite !(extract_tensor_data_split _ _ _ Hs).
      destruct (locate_tensor state idx) as [[extents device_ptr]|] eqn:Hloc;
        [|split; [reflexivity | apply same_device_refl]].
      pose proof (locate_tensor_range _ _ _ _ Hloc) as Hrange.
      destruct (transfer_same_device extents device_ptr m1 m2 Hrange Hsame)
        as [Hfst Hsnd].
      destruct (transfer extents device_ptr m1) as [[a1|e1] m1'],
               (transfer extents device_ptr m2) as [[a2|e2] m2'];
        simpl in *; split; congruence.
    - rewrite !(extract_tensor_data_unsupported _ _ _ Hs).
      split; [reflexivity | apply same_device_refl]. }
  split; [apply (Hstep m m), same_device_refl|].
  split; [intros m' Hsame; apply (Hstep m' m Hsame)|].
  apply Hstep, (Hstep m m), same_device_refl.
Qed.

Lemma extract_tensor_data_repeatable_witness :
  fst (extract_tensor_data handle_single_only 0 machine_ok_later)
    = fst (extract_tensor_data handle_single_only 0 machine_ok) /\
  fst (extract_tensor_data handle_single_only 0 machine_ok)
    = Ok {| nd_shape := [2; 2]; nd_data := sample_bytes |}.
Proof.
  split.
  - apply (proj1 (proj2 (extract_tensor_data_repeatable handle_single_only 0 machine_ok))).
    split; reflexivity.
  - vm_compute. reflexivity.
Defined.

End HostCopy.

(** ** How the operations fail *)

Section Failures.

Import Examples.

(** X1.  [get_num_qubits] throws its own runtime error when the handle has
    no [num_qubits]; an exception raised by the accessor itself reaches the
    caller as it is, without a prefix; and a returned count is a [size_t]
    value of a handle that exposes the accessor. *)
Theorem get_num_qubits_outcome (state : pyobj) :
  (~ exposes state "num_qubits" ->
     get_num_qubits state =
       Err (runtime_error "State object does not have 'num_qubits' method")) /\
  (forall e, exposes state "num_qubits" ->
     Pybind.attr_call state "num_qubits" [] = Err e ->
     get_num_qubits state = Err e) /\
  (forall n, get_num_qubits state = Ok n ->
     is_size_t n /\ exposes state "num_qubits").
Proof.
  unfold get_num_qubits.
  destruct (Py.hasattr state "num_qubits") eqn:Hs; simpl.
  - apply hasattr_exposes in Hs.
    split; [intros H; contradiction|]. split.
    + intros e _ He. by rewrite He.
    + intros n. destruct (Pybind.attr_call state "num_qubits" []) as [r|];
        simpl; [|discriminate].
      intros Hn. split; [eapply cast_size_t_range; eassumption | exact Hs].
  - apply hasattr_false in Hs.
    split; [reflexivity|]. split; [intros e He; contradiction | discriminate].
Qed.

Lemma get_num_qubits_outcome_witness :
  get_num_qubits handle_bare =
    Err (runtime_error "State object does not have 'num_qubits' method") /\
  get_num_qubits handle_qubits_raising =
    Err (error_already_set (ValueError "state destroyed")) /\
  (is_size_t 5 /\ exposes handle_qubits "num_qubits").
Proof.
  split; [|split].
  - apply (proj1 (get_num_qubits_outcome handle_bare)).
    vm_compute. intros [? ?]. discriminate.
  - apply (proj1 (proj2 (get_num_qubits_outcome handle_qubits_raising))).
    + vm_compute. eexists. reflexivity.
    + vm_compute. reflexivity.
  - apply (proj2 (proj2 (get_num_qubits_outcome handle_qubits)) 5).
    vm_compute. reflexivity.
Defined.

(** X2.  [get_tensor_info] can fail in three ways only: the handle has no
    [getTensor]; the accessor call raises; or the tensor object has an
    [extents] that does not cast to a vector of [size_t].  In the last two
    cases the error is a runtime error whose text is the cause's text after
    a fixed prefix.  A missing or unusable [data] never makes it fail. *)
Theorem get_tensor_info_failure (state : pyobj) (idx : Z) (e : exn) :
  get_tensor_info state idx = Err e <->
  (~ exposes state "getTensor" /\
   e = runtime_error "State object does not support getTensor()") \/
  (exposes state "getTensor" /\
   exists cause,
     e = runtime_error ("Failed to get tensor info: " +:+ what cause) /\
     (Pybind.attr_call state "getTensor" [idx] = Err cause \/
      exists tensor_obj ext,
        Pybind.attr_call state "getTensor" [idx] = Ok tensor_obj /\
        Py.getattr tensor_obj "extents" = Some ext /\
        Pybind.cast_vector_size_t ext = Err cause)).
Proof.
  unfold get_tensor_info.
  destruct (Py.hasattr state "getTensor") eqn:Hs; simpl.
  2:{ apply hasattr_false in Hs. split.
      - intros [= <-]. left. split; [exact Hs | reflexivity].
      - intros [[_ ->]|[Hf _]]; [reflexivity | contradiction]. }
  apply hasattr_exposes in Hs.
  destruct (Pybind.attr_call state "getTensor" [idx]) as [tensor_obj|cause0]; simpl.
  2:{ split.
      - intros [= <-]. right. split; [exact Hs|].
        exists cause0. split; [reflexivity | by left].
      - intros [[Hf _]|[_ (cause & -> & [[= ->]|(t & ext & Hc & _)])]];
          [contradiction | reflexivity | discriminate]. }
  unfold Py.hasattr, Pybind.attr.
  destruct (Py.getattr tensor_obj "extents") as [ext|] eqn:Hext; simpl.
  2:{ split; [destruct (Py.getattr tensor_obj "data"); discriminate|].
      intros [[Hf _]|[_ (cause & _ & [Hc|(t & ext & [= <-] & Hx & _)])]];
        [contradiction | discriminate | congruence]. }
  destruct (Pybind.cast_vector_size_t ext) as [extents|cause0] eqn:Hcast; simpl.
  - split; [destruct (Py.getattr tensor_obj "data"); discriminate|].
    intros [[Hf _]|[_ (cause & _ & [Hc|(t & ext' & [= <-] & Hx & Hy)])]];
      [contradiction | discriminate | congruence].
  - split.
    + intros [= <-]. right. split; [exact Hs|].
      exists cause0. split; [reflexivity|]. right. by exists tensor_obj, ext.
    + intros [[Hf _]|[_ (cause & -> & [Hc|(t & ext' & [= <-] & Hx & Hy)])]];
        [contradiction | discriminate |].
      rewrite Hext in Hx. injection Hx as <-.
      rewrite Hcast in Hy. by injection Hy as <-.
Qed.

Lemma get_tensor_info_failure_witness :
  get_tensor_info handle_five 2 =
    Err (runtime_error "Failed to get tensor info: ValueError: malformed tensor") /\
  get_tensor_info (handle_of tensor_negative) 0 =
    Err (runtime_error
           "Failed to get tensor info: Unable to cast Python instance to C++ type").
Proof.
  split.
  - apply (proj2 (get_tensor_info_failure handle_five 2 _)).
    right. split; [vm_compute; eexists; reflexivity|].
    exists (error_already_set (ValueError "malformed tensor")).
    split; [reflexivity|]. left. vm_compute. reflexivity.
  - apply (proj2 (get_tensor_info_failure (handle_of tensor_negative) 0 _)).
    right. split; [vm_compute; eexists; reflexivity|].
    exists (cast_error Pybind.cast_msg).
    split; [reflexivity|]. right.
    exists tensor_negative, (PyList [PyInt 2; PyInt (-1)]).
    repeat split; vm_compute; reflexivity.
Defined.

(** X3.  [get_all_tensors_info] fails exactly when the handle exposes
    [getTensors] and either the accessor call raises or the returned
    collection has a [__len__] whose evaluation raises; the error is then a
    runtime error carrying the cause's text after a fixed prefix.  A
    collection without [__len__] is no error: the result is empty. *)
Theorem get_all_tensors_info_failure (state : pyobj) :
  (forall e,
     get_all_tensors_info state = Err e <->
     exposes state "getTensors" /\
     exists cause,
       e = runtime_error ("Failed to get tensors: " +:+ what cause) /\
       (Pybind.attr_call state "getTensors" [] = Err cause \/
        exists tensors_obj,
          Pybind.attr_call state "getTensors" [] = Ok tensors_obj /\
          exposes tensors_obj "__len__" /\
          Pybind.len tensors_obj = Err cause)) /\
  (forall tensors_obj,
     exposes state "getTensors" ->
     Pybind.attr_call state "getTensors" [] = Ok tensors_obj ->
     ~ exposes tensors_obj "__len__" ->
     get_all_tensors_info state = Ok []).
Proof.
  unfold get_all_tensors_info.
  destruct (Py.hasattr state "getTensors") eqn:Hs; simpl.
  2:{ apply hasattr_false in Hs. split.
      - intros e. split; [discriminate | intros [Hf _]; contradiction].
      - reflexivity. }
  apply hasattr_exposes in Hs.
  destruct (Pybind.attr_call state "getTensors" []) as [tensors_obj|cause0]; simpl.
  2:{ split; [|discriminate]. intros e. split.
      - intros [= <-]. split; [exact Hs|]. exists cause0. split; [reflexivity | by left].
      - intros [_ (cause & -> & [[= ->]|(t & Hc & _)])]; [reflexivity | discriminate]. }
  destruct (Py.hasattr tensors_obj "__len__") eqn:Hl.
  - apply hasattr_exposes in Hl. split.
    + intros e. destruct (Pybind.len tensors_obj) as [num|cause0] eqn:Hlen; simpl.
      * split; [discriminate|].
        intros [_ (cause & _ & [Hc|(t & [= <-] & _ & Hy)])]; [discriminate|].
        rewrite Hlen in Hy. discriminate.
      * split.
        -- intros [= <-]. split; [exact Hs|]. exists cause0.
           split; [reflexivity|]. right. by exists tensors_obj.
        -- intros [_ (cause & -> & [Hc|(t & [= <-] & _ & Hy)])]; [discriminate|].
           rewrite Hlen in Hy. by injection Hy as <-.
    + intros t _ [= <-] Hn. contradiction.
  - apply hasattr_false in Hl. split.
    + intros e. split; [discriminate|].
      intros [_ (cause & _ & [Hc|(t & [= <-] & He & _)])];
        [discriminate | contradiction].
    + reflexivity.
Qed.

Lemma get_all_tensors_info_failure_witness :
  get_all_tensors_info handle_whole_raising =
    Err (runtime_error "Failed to get tensors: ValueError: state destroyed") /\
  get_all_tensors_info handle_whole_opaque = Ok [].
Proof.
  split.
  - apply (proj2 (proj1 (get_all_tensors_info_failure handle_whole_raising) _)).
    split; [vm_compute; eexists; reflexivity|].
    exists (error_already_set (ValueError "state destroyed")).
    split; [reflexivity|]. left. vm_compute. reflexivity.
  - apply (proj2 (get_all_tensors_info_failure handle_whole_opaque) PyNone).
    + vm_compute. eexists. reflexivity.
    + vm_compute. reflexivity.
    + vm_compute. intros [? ?]. discriminate.
Defined.

(** X4.  Whatever goes wrong inside [extract_tensor_data], the caller sees
    one exception type, a runtime error.  The call fails exactly when
    [getTensor] is missing, with the unsupported-handle error, or when the
    introspection or the transfer part throws; the error then carries the
    text of that very exception after a fixed prefix. *)
Theorem extract_tensor_data_failure (state : pyobj) (idx : Z) (m : machine) (e : exn) :
  fst (extract_tensor_data state idx m) = Err e <->
  (~ exposes state "getTensor" /\ e = unsupported_handle) \/
  (exposes state "getTensor" /\
   exists cause,
     e = runtime_error ("Failed to extract tensor data: " +:+ what cause) /\
     (locate_tensor state idx = Err cause \/
      exists extents device_ptr,
        locate_tensor state idx = Ok (extents, device_ptr) /\
        fst (transfer extents device_ptr m) = Err cause)).
Proof.
  destruct (Py.hasattr state "getTensor") eqn:Hs.
  2:{ rewrite (extract_tensor_data_unsupported _ _ _ Hs). simpl.
      apply hasattr_false in Hs. split.
      - intros [= <-]. left. by split.
      - intros [[_ ->]|[Hf _]]; [reflexivity | contradiction]. }
  rewrite (extract_tensor_data_split _ _ _ Hs).
  apply hasattr_exposes in Hs.
  destruct (locate_tensor state idx) as [[extents device_ptr]|cause0] eqn:Hloc.
  2:{ simpl. split.
      - intros [= <-]. right. split; [exact Hs|].
        exists cause0. split; [reflexivity | by left].
      - intros [[Hf _]|[_ (cause & -> & [[= ->]|(x & y & Hc & _)])]];
          [contradiction | reflexivity | discriminate]. }
  destruct (transfer extents device_ptr m) as [[arr|cause0] m'] eqn:Htr; simpl.
  - split; [discriminate|].
    intros [[Hf _]|[_ (cause & _ & [Hc|(x & y & [= <- <-] & Hy)])]];
      [contradiction | discriminate |].
    rewrite Htr in Hy. discriminate.
  - split.
    + intros [= <-]. right. split; [exact Hs|].
      exists cause0. split; [reflexivity|]. right.
      exists extents, device_ptr. split; [reflexivity|]. by rewrite Htr.
    + intros [[Hf _]|[_ (cause & -> & [Hc|(x & y & [= <- <-] & Hy)])]];
        [contradiction | discriminate |].
      rewrite Htr in Hy. simpl in Hy. by injection Hy as <-.
Qed.

Lemma extract_tensor_data_failure_witness :
  fst (extract_tensor_data handle_single_only 0 machine_short) =
    Err (runtime_error
           "Failed to extract tensor data: CUDA memcpy failed: invalid argument") /\
  fst (extract_tensor_data (handle_of tensor_negative) 0 machine_ok) =
    Err (runtime_error
           "Failed to extract tensor data: Unable to cast Python instance to C++ type").
Proof.
  split.
  - apply (proj2 (extract_tensor_data_failure handle_single_only 0 machine_short _)).
    right. split; [vm_compute; eexists; reflexivity|].
    exists (runtime_error "CUDA memcpy failed: invalid argument").
    split; [reflexivity|]. right. exists [2; 2], 4096.
    split; vm_compute; reflexivity.
  - apply (proj2 (extract_tensor_data_failure (handle_of tensor_negative) 0 machine_ok _)).
    right. split; [vm_compute; eexists; reflexivity|].
    exists (cast_error Pybind.cast_msg).
    split; [reflexivity|]. left. vm_compute. reflexivity.
Defined.

(** X5.  When the tensor object lacks [data] or lacks [extents],
    [extract_tensor_data] fails with its missing-attributes error before
    anything is allocated or copied: the machine is left as it was. *)
Theorem extract_tensor_data_missing_attribute
    (state : pyobj) (idx : Z) (tensor_obj : pyobj) (m : machine) :
  exposes state "getTensor" ->
  Pybind.attr_call state "getTensor" [idx] = Ok tensor_obj ->
  ~ exposes tensor_obj "data" \/ ~ exposes tensor_obj "extents" ->
  extract_tensor_data state idx m =
    (Err (runtime_error
            "Failed to extract tensor data: Tensor object does not expose 'data' or 'extents' attributes"),
     m).
Proof.
  intros Hs Hc Hmiss. apply hasattr_exposes in Hs.
  rewrite (extract_tensor_data_split _ _ _ Hs).
  unfold locate_tensor. rewrite Hc. simpl.
  assert (Py.hasattr tensor_obj "data" && Py.hasattr tensor_obj "extents" = false)
    as ->; [|reflexivity].
  destruct Hmiss as [H|H]; apply hasattr_false in H; rewrite H;
    [reflexivity | apply andb_false_r].
Qed.

Lemma extract_tensor_data_missing_attribute_witness :
  extract_tensor_data (handle_of tensor_no_data) 0 machine_ok =
    (Err (runtime_error
            "Failed to extract tensor data: Tensor object does not expose 'data' or 'extents' attributes"),
     machine_ok) /\
  extract_tensor_data (handle_of tensor_shapeless) 0 machine_ok =
    (Err (runtime_error
            "Failed to extract tensor data: Tensor object does not expose 'data' or 'extents' attributes"),
     machine_ok).
Proof.
  split.
  - apply (extract_tensor_data_missing_attribute _ _ tensor_no_data).
    + vm_compute. eexists. reflexivity.
    + vm_compute. reflexivity.
    + left. vm_compute. intros [? ?]. discriminate.
  - apply (extract_tensor_data_missing_attribute _ _ tensor_shapeless).
    + vm_compute. eexists. reflexivity.
    + vm_compute. reflexivity.
    + right. vm_compute. intros [? ?]. discriminate.
Defined.

End Failures.

(** ** Descriptors and host copies of the same tensor *)

Section Agreement.

Import Examples.

Lemma getattr_hasattr o name v : Py.getattr o name = Some v -> Py.hasattr o name = true.
Proof. intros H. unfold Py.hasattr. by rewrite H. Qed.

(** What a successful introspection went through. *)
Lemma locate_tensor_inv state idx extents device_ptr :
  locate_tensor state idx = Ok (extents, device_ptr) ->
  exists tensor_obj ext,
    Pybind.attr_call state "getTensor" [idx] = Ok tensor_obj /\
    Py.hasattr tensor_obj "data" = true /\
    Py.getattr tensor_obj "extents" = Some ext /\
    Pybind.cast_vector_size_t ext = Ok extents /\
    resolve_device_ptr tensor_obj = Ok device_ptr.
Proof.
  unfold locate_tensor, Pybind.attr.
  destruct (Pybind.attr_call state "getTensor" [idx]) as [tensor_obj|]; simpl;
    [|discriminate].
  destruct (Py.hasattr tensor_obj "data") eqn:Hd; simpl; [|discriminate].
  unfold Py.hasattr.
  destruct (Py.getattr tensor_obj "extents") as [ext|] eqn:Hext; simpl;
    [|discriminate].
  destruct (Pybind.cast_vector_size_t ext) as [extents'|] eqn:Hcast; simpl;
    [|discriminate].
  destruct (resolve_device_ptr tensor_obj) as [ptr|] eqn:Hptr; simpl;
    [|discriminate].
  intros [= <- <-]. by exists tensor_obj, ext.
Qed.

(** The descriptor of a tensor object with a well-formed shape. *)
Lemma get_tensor_info_shaped state idx tensor_obj ext extents :
  Py.hasattr state "getTensor" = true ->
  Pybind.attr_call state "getTensor" [idx] = Ok tensor_obj ->
  Py.getattr tensor_obj "extents" = Some ext ->
  Pybind.cast_vector_size_t ext = Ok extents ->
  get_tensor_info state idx =
    Ok {| shape := extents;
          total_elements := mul_dims extents;
          size_bytes := Word.wrap (mul_dims extents * Word.sizeof_complex_double);
          dtype := "complex128";
          device_ptr := if Py.hasattr tensor_obj "data" then 1 else 0 |}.
Proof.
  intros Hs Hc Hext Hcast. unfold get_tensor_info, Pybind.attr.
  rewrite Hs, Hc. simpl. rewrite (getattr_hasattr _ _ _ Hext), Hext. simpl.
  rewrite Hcast. simpl. by destruct (Py.hasattr tensor_obj "data").
Qed.

(** X6.  Whenever [extract_tensor_data] returns an array, [get_tensor_info]
    for the same handle and index succeeds and describes that array: the
    same shape, the exact element count, a byte size equal to the number of
    bytes in the array, the [complex128] tag and the data-available flag. *)
Theorem descriptor_matches_host_copy
    (state : pyobj) (idx : Z) (m : machine) (arr : ndarray) :
  fst (extract_tensor_data state idx m) = Ok arr ->
  exists info,
    get_tensor_info state idx = Ok info /\
    shape info = nd_shape arr /\
    total_elements info = product (nd_shape arr) /\
    size_bytes info = Z.of_nat (length (nd_data arr)) /\
    dtype info = "complex128" /\
    data_available info = true.
Proof.
  intros Harr.
  destruct (Py.hasattr state "getTensor") eqn:Hs;
    [|rewrite (extract_tensor_data_unsupported _ _ _ Hs) in Harr; discriminate].
  rewrite (extract_tensor_data_split _ _ _ Hs) in Harr.
  destruct (locate_tensor state idx) as [[extents device_ptr]|] eqn:Hloc;
    [|discriminate].
  pose proof (locate_tensor_range _ _ _ _ Hloc) as Hrange.
  destruct (locate_tensor_inv _ _ _ _ Hloc)
    as (tensor_obj & ext & Hc & Hd & Hext & Hcast & _).
  rewrite (transfer_spec _ _ _ Hrange) in Harr.
  destruct (mul_dims extents >? vector_max_size); [discriminate|].
  destruct (negb (gpu_sticky m =? cudaSuccess)); [discriminate|].
  destruct (dev_read (gpu_mem m) device_ptr _) as [bs [|]] eqn:Hread;
    [|discriminate].
  destruct (npy_check_dims _ _) as [r|] eqn:Hcheck; [|discriminate].
  simpl in Harr. injection Harr as <-.
  destruct (accepted_shape _ _ Hrange Hcheck) as (_ & Htotal & Hfit).
  apply dev_read_length in Hread.
  eexists. split; [apply (get_tensor_info_shaped _ _ _ _ _ Hs Hc Hext Hcast)|].
  simpl. rewrite Hd. repeat split; try done.
  rewrite Hread, Htotal.
  unfold Word.sizeof_complex_double, Word.SSIZE_MAX in *.
  rewrite wrap_small by (unfold is_size_t, Word.SIZE_MAX1; lia). lia.
Qed.

Lemma descriptor_matches_host_copy_witness :
  exists info,
    get_tensor_info handle_single_only 0 = Ok info /\
    shape info = [2; 2] /\
    total_elements info = product [2; 2] /\
    size_bytes info = Z.of_nat (length sample_bytes) /\
    dtype info = "complex128" /\
    data_available info = true.
Proof.
  apply (descriptor_matches_host_copy handle_single_only 0 machine_ok
           {| nd_shape := [2; 2]; nd_data := sample_bytes |}).
  vm_compute. reflexivity.
Defined.

(** An address presented in any of the three forms resolves to itself. *)
Lemma resolve_presented tensor_obj d p :
  Py.getattr tensor_obj "data" = Some d ->
  presents_address d p ->
  resolve_device_ptr tensor_obj = Ok p.
Proof.
  intros Hd Hp. unfold resolve_device_ptr, Pybind.attr_call, Pybind.attr.
  rewrite Hd. simpl.
  destruct Hp as [[Hcall Hrange]|[Hcall| ->]].
  - rewrite Hcall. simpl. unfold Word.in_size_t, is_size_t in *.
    destruct (Z.leb_spec 0 p), (Z.ltb_spec p Word.SIZE_MAX1); simpl; try lia.
    reflexivity.
  - rewrite Hcall. reflexivity.
  - reflexivity.
Qed.

(** X7.  The form in which a tensor object presents its device address
    does not matter: two tensor objects with the same [extents] whose [data]
    present the same address, be it through a method returning an integer,
    a method returning a capsule or a plain capsule property, extract to the
    same outcome on the same machine. *)
Theorem extract_tensor_data_any_presentation
    (state1 state2 : pyobj) (idx1 idx2 : Z) (t1 t2 ext d1 d2 : pyobj) (p : Z)
    (m : machine) :
  exposes state1 "getTensor" ->
  exposes state2 "getTensor" ->
  Pybind.attr_call state1 "getTensor" [idx1] = Ok t1 ->
  Pybind.attr_call state2 "getTensor" [idx2] = Ok t2 ->
  Py.getattr t1 "extents" = Some ext ->
  Py.getattr t2 "extents" = Some ext ->
  Py.getattr t1 "data" = Some d1 ->
  Py.getattr t2 "data" = Some d2 ->
  presents_address d1 p ->
  presents_address d2 p ->
  extract_tensor_data state1 idx1 m = extract_tensor_data state2 idx2 m.
Proof.
  intros Hs1 Hs2 Hc1 Hc2 He1 He2 Hd1 Hd2 Hp1 Hp2.
  apply hasattr_exposes in Hs1. apply hasattr_exposes in Hs2.
  rewrite (extract_tensor_data_split _ _ _ Hs1), (extract_tensor_data_split _ _ _ Hs2).
  assert (forall state idx t d,
            Pybind.attr_call state "getTensor" [idx] = Ok t ->
            Py.getattr t "extents" = Some ext ->
            Py.getattr t "data" = Some d ->
            presents_address d p ->
            locate_tensor state idx =
              Cxx.bind (Pybind.cast_vector_size_t ext)
                       (fun extents => ret (extents, p))) as Hloc.
  { intros state idx t d Hc He Hd Hp. unfold locate_tensor, Pybind.attr.
    rewrite Hc. simpl.
    rewrite (getattr_hasattr _ _ _ Hd), (getattr_hasattr _ _ _ He), He. simpl.
    destruct (Pybind.cast_vector_size_t ext); simpl; [|reflexivity].
    by rewrite (resolve_presented _ _ _ Hd Hp). }
  by rewrite (Hloc _ _ _ _ Hc1 He1 Hd1 Hp1), (Hloc _ _ _ _ Hc2 He2 Hd2 Hp2).
Qed.

Lemma extract_tensor_data_any_presentation_witness :
  extract_tensor_data (handle_of tensor_2x2) 0 machine_ok =
    extract_tensor_data (handle_of tensor_2x2_property) 1 machine_ok /\
  extract_tensor_data (handle_of tensor_2x2_capsule) 0 machine_ok =
    extract_tensor_data (handle_of tensor_2x2_property) 1 machine_ok.
Proof.
  split.
  - apply (extract_tensor_data_any_presentation _ _ _ _
             tensor_2x2 tensor_2x2_property (PyList [PyInt 2; PyInt 2])
             (method (fun _ => Ok (PyInt 4096))) (PyCapsule 4096) 4096);
      try (vm_compute; reflexivity); try (vm_compute; eexists; reflexivity).
    + left. split; [reflexivity | vm_compute; split; [discriminate | reflexivity]].
    + right. right. reflexivity.
  - apply (extract_tensor_data_any_presentation _ _ _ _
             tensor_2x2_capsule tensor_2x2_property (PyList [PyInt 2; PyInt 2])
             (method (fun _ => Ok (PyCapsule 4096))) (PyCapsule 4096) 4096);
      try (vm_compute; reflexivity); try (vm_compute; eexists; reflexivity).
    + right. left. reflexivity.
    + right. right. reflexivity.
Defined.

End Agreement.

(** ** Shapes *)

Section Shapes.

Import Examples.

Lemma in_size_t_spec d : Word.in_size_t d = true <-> is_size_t d.
Proof.
  unfold Word.in_size_t, is_size_t.
  rewrite andb_true_iff, Z.leb_le, Z.ltb_lt. reflexivity.
Qed.

(** Casting a list of Python integers: all of them, or a cast error. *)
Lemma cast_items_ints (dims : list Z) :
  Pybind.cast_items (map PyInt dims) =
    if forallb Word.in_size_t dims then Ok dims
    else Err (cast_error Pybind.cast_msg).
Proof.
  induction dims as [|d dims IH]; simpl; [reflexivity|].
  destruct (Word.in_size_t d); simpl; [|reflexivity].
  rewrite IH. by destruct (forallb Word.in_size_t dims).
Qed.

Lemma forallb_in_size_t dims :
  forallb Word.in_size_t dims = true <-> Forall is_size_t dims.
Proof.
  rewrite forallb_forall, Forall_forall.
  split; intros H d Hd.
  - apply in_size_t_spec, H. by apply list_elem_of_In.
  - apply in_size_t_spec, H. by apply list_elem_of_In.
Qed.

(** X8.  When the tensor object's [extents] is a list of integers,
    [get_tensor_info] reports exactly that list, in the same order, as the
    shape, provided every entry is a [size_t] value; if some entry is
    negative or does not fit 64 bits it fails with a cast error instead of
    reporting a partial or default shape. *)
Theorem get_tensor_info_reports_shape
    (state : pyobj) (idx : Z) (tensor_obj : pyobj) (dims : list Z) :
  exposes state "getTensor" ->
  Pybind.attr_call state "getTensor" [idx] = Ok tensor_obj ->
  Py.getattr tensor_obj "extents" = Some (PyList (map PyInt dims)) ->
  (Forall is_size_t dims ->
   exists info,
     get_tensor_info state idx = Ok info /\
     shape info = dims /\
     total_elements info = Word.wrap (product dims) /\
     dtype info = "complex128") /\
  (~ Forall is_size_t dims ->
   get_tensor_info state idx =
     Err (runtime_error
            "Failed to get tensor info: Unable to cast Python instance to C++ type")).
Proof.
  intros Hs Hc Hext. apply hasattr_exposes in Hs.
  pose proof (cast_items_ints dims) as Hcast.
  split; intros Hdims.
  - apply forallb_in_size_t in Hdims. rewrite Hdims in Hcast.
    eexists. split;
      [apply (get_tensor_info_shaped _ _ _ _ _ Hs Hc Hext Hcast)|].
    simpl. repeat split. apply mul_dims_product.
  - destruct (forallb Word.in_size_t dims) eqn:Hall;
      [exfalso; by apply Hdims, forallb_in_size_t|].
    unfold get_tensor_info, Pybind.attr.
    rewrite Hs, Hc. simpl. rewrite (getattr_hasattr _ _ _ Hext), Hext. simpl.
    by rewrite Hcast.
Qed.

Lemma get_tensor_info_reports_shape_witness :
  (exists info,
     get_tensor_info (handle_of tensor_empty) 0 = Ok info /\
     shape info = [3; 0; 4] /\
     total_elements info = Word.wrap (product [3; 0; 4]) /\
     dtype info = "complex128") /\
  get_tensor_info (handle_of tensor_negative) 0 =
    Err (runtime_error
           "Failed to get tensor info: Unable to cast Python instance to C++ type").
Proof.
  split.
  - apply (proj1 (get_tensor_info_reports_shape (handle_of tensor_empty) 0
                    tensor_empty [3; 0; 4]
                    ltac:(vm_compute; eexists; reflexivity) eq_refl eq_refl)).
    repeat constructor; vm_compute; discriminate.
  - apply (proj2 (get_tensor_info_reports_shape (handle_of tensor_negative) 0
                    tensor_negative [2; -1]
                    ltac:(vm_compute; eexists; reflexivity) eq_refl eq_refl)).
    intros H. inversion H as [|? ? _ H1]; subst.
    inversion H1 as [|? ? [H2 _] _]; subst. lia.
Defined.

Lemma product_zero (dims : list Z) : 0 ∈ dims -> product dims = 0.
Proof.
  induction dims as [|d dims IH]; intros Hin; [by apply elem_of_nil in Hin|].
  simpl. apply elem_of_cons in Hin as [<-|Hin]; [lia|].
  rewrite (IH Hin). lia.
Qed.

(** X9.  A descriptor whose shape has a zero-size dimension has zero
    elements and zero bytes. *)
Theorem get_tensor_info_zero_dimension (state : pyobj) (idx : Z) (info : TensorInfo) :
  get_tensor_info state idx = Ok info ->
  0 ∈ shape info ->
  total_elements info = 0 /\ size_bytes info = 0.
Proof.
  intros Hinfo Hzero.
  apply get_tensor_info_inv in Hinfo as (_ & Hsize & [(_ & Hnil & _)|(_ & Htotal)]).
  { rewrite Hnil in Hzero. by apply elem_of_nil in Hzero. }
  rewrite (product_zero _ Hzero) in Htotal.
  rewrite Hsize, Htotal. split; reflexivity.
Qed.

Lemma get_tensor_info_zero_dimension_witness :
  total_elements (mkTensorInfo [3; 0; 4] 0 0 "complex128" 1) = 0 /\
  size_bytes (mkTensorInfo [3; 0; 4] 0 0 "complex128" 1) = 0.
Proof.
  apply (get_tensor_info_zero_dimension (handle_of tensor_empty) 0).
  - vm_compute. reflexivity.
  - simpl. apply elem_of_cons. right. apply elem_of_cons. by left.
Defined.

(** X10.  A tensor too large for any host array is refused, not truncated:
    when sixteen times the product of the resolved shape exceeds the
    largest [ssize_t], [extract_tensor_data] fails, even though the
    wrapped element count that sizes the host buffer may be small. *)
Theorem extract_tensor_data_oversized
    (state : pyobj) (idx : Z) (extents : list Z) (device_ptr : Z) (m : machine) :
  locate_tensor state idx = Ok (extents, device_ptr) ->
  Word.SSIZE_MAX < Word.sizeof_complex_double * product extents ->
  exists e, fst (extract_tensor_data state idx m) = Err e.
Proof.
  intros Hloc Hbig.
  destruct (Py.hasattr state "getTensor") eqn:Hs;
    [|rewrite (extract_tensor_data_unsupported _ _ _ Hs); by eexists].
  rewrite (extract_tensor_data_split _ _ _ Hs), Hloc.
  pose proof (locate_tensor_range _ _ _ _ Hloc) as Hrange.
  rewrite (transfer_spec _ _ _ Hrange).
  destruct (mul_dims extents >? vector_max_size); [by eexists|].
  destruct (negb (gpu_sticky m =? cudaSuccess)); [by eexists|].
  destruct (dev_read (gpu_mem m) device_ptr _) as [bs [|]]; [|by eexists].
  destruct (npy_check_dims _ _) as [r|] eqn:Hcheck; [|by eexists].
  destruct (accepted_shape _ _ Hrange Hcheck) as (_ & _ & Hfit). lia.
Qed.

Lemma extract_tensor_data_oversized_witness :
  exists e, fst (extract_tensor_data (handle_of tensor_oversized) 0 machine_ok) = Err e.
Proof.
  apply (extract_tensor_data_oversized (handle_of tensor_oversized) 0
           [2 ^ 30; 2 ^ 30] 4096 machine_ok).
  - vm_compute. reflexivity.
  - vm_compute. reflexivity.
Defined.

End Shapes.

(** ** Positions in the batch result *)

Section BatchPositions.

Import Examples.

Lemma omap_length_le {A B} (f : A -> option B) (l : list A) :
  (length (omap f l) <= length l)%nat.
Proof.
  induction l as [|x l IH]; [reflexivity|].
  cbn. destruct (f x); simpl; lia.
Qed.

Lemma omap_length_eq {A B} (f : A -> option B) (l : list A) :
  length (omap f l) = length l <-> Forall (fun x => is_Some (f x)) l.
Proof.
  induction l as [|x l IH]; [split; [constructor | reflexivity]|].
  cbn. pose proof (omap_length_le f l) as Hle.
  destruct (f x) as [y|] eqn:Hx; simpl.
  - split.
    + intros [= Hlen]. constructor; [rewrite Hx; by eexists | by apply IH].
    + intros Hall. inversion Hall; subst. f_equal. by apply IH.
  - split; [intros Hlen; lia|].
    intros Hall. inversion Hall as [|? ? [y Hy] _]; subst. congruence.
Qed.

Lemma omap_lookup_all {A B} (f : A -> option B) (l : list A) :
  Forall (fun x => is_Some (f x)) l ->
  forall i, omap f l !! i = l !! i ≫= f.
Proof.
  induction 1 as [|x l [y Hy] _ IH]; intros i; [reflexivity|].
  cbn. rewrite Hy. destruct i as [|i]; simpl; [by rewrite Hy | apply IH].
Qed.

(** X11.  For an enumerable network of length [n] the batch result never
    has more than [n] entries; it has exactly [n] if and only if the
    per-index call succeeds at every index below [n]; and in that case the
    entry at position [i] is the descriptor of index [i]. *)
Theorem get_all_tensors_info_positions (state tensors_obj : pyobj) (n : nat) :
  exposes state "getTensors" ->
  Pybind.attr_call state "getTensors" [] = Ok tensors_obj ->
  exposes tensors_obj "__len__" ->
  Pybind.len tensors_obj = Ok (Z.of_nat n) ->
  exists infos,
    get_all_tensors_info state = Ok infos /\
    (length infos <= n)%nat /\
    (length infos = n <->
       forall i, (i < n)%nat ->
                 exists info, get_tensor_info state (Z.of_nat i) = Ok info) /\
    (length infos = n ->
       forall i info, infos !! i = Some info ->
                      get_tensor_info state (Z.of_nat i) = Ok info).
Proof.
  intros Hs Hc Hl Hn.
  apply hasattr_exposes in Hs. apply hasattr_exposes in Hl.
  exists (succeeding_descriptors state n).
  split.
  { rewrite (get_all_tensors_info_enumerable _ _ _ Hs Hc Hl Hn).
    by rewrite Nat2Z.id. }
  unfold succeeding_descriptors.
  set (f := fun i => ok_to_option (get_tensor_info state (Z.of_nat i))).
  assert (Forall (fun i => is_Some (f i)) (seq 0 n) <->
          forall i, (i < n)%nat ->
                    exists info, get_tensor_info state (Z.of_nat i) = Ok info)
    as Hall.
  { rewrite Forall_forall. split.
    - intros H i Hi. destruct (H i) as [info Hinfo].
      { apply elem_of_seq. lia. }
      unfold f in Hinfo.
      destruct (get_tensor_info state (Z.of_nat i)) as [info'|]; [|discriminate].
      by eexists.
    - intros H i Hi. apply elem_of_seq in Hi.
      destruct (H i) as [info Hinfo]; [lia|].
      unfold f. rewrite Hinfo. by eexists. }
  split; [|split].
  - pose proof (omap_length_le f (seq 0 n)) as Hle. by rewrite length_seq in Hle.
  - rewrite <- Hall, <- omap_length_eq, length_seq. reflexivity.
  - intros Hlen i info Hi.
    assert (Forall (fun i => is_Some (f i)) (seq 0 n)) as Hsome.
    { apply omap_length_eq. by rewrite length_seq. }
    assert (i < n)%nat as Hlt.
    { apply lookup_lt_Some in Hi. by rewrite Hlen in Hi. }
    rewrite (omap_lookup_all f _ Hsome i), lookup_seq_lt in Hi by exact Hlt.
    simpl in Hi. unfold f in Hi.
    destruct (get_tensor_info state (Z.of_nat i)) as [info'|]; simpl in Hi;
      [|discriminate].
    by injection Hi as ->.
Qed.

Lemma get_all_tensors_info_positions_witness :
  exists infos,
    get_all_tensors_info handle_three = Ok infos /\
    (length infos <= 3)%nat /\
    (length infos = 3%nat <->
       forall i, (i < 3)%nat ->
                 exists info, get_tensor_info handle_three (Z.of_nat i) = Ok info) /\
    (length infos = 3%nat ->
       forall i info, infos !! i = Some info ->
                      get_tensor_info handle_three (Z.of_nat i) = Ok info).
Proof.
  apply (get_all_tensors_info_positions handle_three
           (PyList [PyNone; PyNone; PyNone]) 3).
  - vm_compute. eexists. reflexivity.
  - vm_compute. reflexivity.
  - vm_compute. eexists. reflexivity.
  - vm_compute. reflexivity.
Defined.

(** X12.  The prober and the operations agree: on a handle for which
    [has_tensors] answers false, each per-tensor operation fails with the
    unsupported-handle error without touching the machine and the batch
    operation returns the empty sequence; conversely, if a per-tensor
    descriptor can be obtained at all, [has_tensors] answers true. *)
Theorem has_tensors_consistent (state : pyobj) :
  (has_tensors state = false ->
     (forall idx, get_tensor_info state idx = Err unsupported_handle) /\
     (forall idx m, extract_tensor_data state idx m = (Err unsupported_handle, m)) /\
     get_all_tensors_info state = Ok []) /\
  (forall idx info, get_tensor_info state idx = Ok info -> has_tensors state = true) /\
  (forall idx m arr, fst (extract_tensor_data state idx m) = Ok arr ->
                     has_tensors state = true).
Proof.
  unfold has_tensors. split; [|split].
  - intros H. apply orb_false_iff in H as [Hall Hone].
    split; [|split].
    + intros idx. by apply get_tensor_info_unsupported.
    + intros idx m. by apply extract_tensor_data_unsupported.
    + unfold get_all_tensors_info. by rewrite Hall.
  - intros idx info H.
    destruct (Py.hasattr state "getTensor") eqn:Hs; [apply orb_true_r|].
    rewrite (get_tensor_info_unsupported _ _ Hs) in H. discriminate.
  - intros idx m arr H.
    destruct (Py.hasattr state "getTensor") eqn:Hs; [apply orb_true_r|].
    rewrite (extract_tensor_data_unsupported _ _ _ Hs) in H. discriminate.
Qed.

Lemma has_tensors_consistent_witness :
  ((forall idx, get_tensor_info handle_bare idx = Err unsupported_handle) /\
   (forall idx m, extract_tensor_data handle_bare idx m = (Err unsupported_handle, m)) /\
   get_all_tensors_info handle_bare = Ok []) /\
  has_tensors handle_single_only = true.
Proof.
  split.
  - apply (proj1 (has_tensors_consistent handle_bare)). vm_compute. reflexivity.
  - apply (proj1 (proj2 (has_tensors_consistent handle_single_only)) 0
             (mkTensorInfo [2; 2] 4 64 "complex128" 1)).
    vm_compute. reflexivity.
Defined.

End BatchPositions.

(** ** The printed form of a descriptor *)

Section Printing.

Import Examples.
Import Repr.

Lemma append_assoc (a b c : string) : (a +:+ b) +:+ c = a +:+ (b +:+ c).
Proof.
  induction a as [|ch a IH]; [reflexivity|].
  change (String ch ((a +:+ b) +:+ c) = String ch (a +:+ (b +:+ c))).
  by rewrite IH.
Qed.

Lemma append_empty_r (a : string) : a +:+ "" = a.
Proof.
  induction a as [|ch a IH]; [reflexivity|].
  change (String ch (a +:+ "") = String ch a).
  by rewrite IH.
Qed.

(** The loop, started after the entries [pre], writes the remaining entries
    separated by commas, with a comma in front unless it starts the list. *)
Lemma shape_str_loop_spec (shape : list Z) : forall rest pre s,
  shape = pre ++ rest ->
  shape_str_loop shape (length pre) (length rest) s =
    s +:+ (if (0 <? length pre)%nat && (0 <? length rest)%nat then ", " else "")
      +:+ String.concat ", " (map to_string rest).
Proof.
  induction rest as [|d rest IH]; intros pre s Hshape.
  - simpl. rewrite andb_false_r. simpl. by rewrite append_empty_r.
  - cbn [length shape_str_loop].
    assert (nth (length pre) shape 0 = d) as ->.
    { rewrite Hshape, app_nth2 by lia. by rewrite Nat.sub_diag. }
    replace (S (length pre)) with (length (pre ++ [d]))
      by (rewrite length_app; simpl; lia).
    rewrite IH by (by rewrite <- app_assoc).
    rewrite length_app. simpl.
    replace (0 <? length pre + 1)%nat with true
      by (symmetry; apply Nat.ltb_lt; lia).
    simpl.
    destruct rest as [|d' rest]; simpl.
    + destruct (0 <? length pre)%nat; simpl;
        rewrite ?append_assoc, ?append_empty_r; reflexivity.
    + destruct (0 <? length pre)%nat; simpl; rewrite ?append_assoc; reflexivity.
Qed.

(** X13.  The printed form of a descriptor lists the shape entries in
    axis order as decimal numbers separated by [", "], with no separator
    before the first or after the last, followed by the element count and
    the dtype; the byte size and the device pointer are not printed. *)
Theorem repr_format (info : TensorInfo) :
  repr info =
    "<TensorInfo: shape=[" +:+ String.concat ", " (map to_string (shape info))
      +:+ "], elements=" +:+ to_string (total_elements info)
      +:+ ", dtype=" +:+ dtype info +:+ ">".
Proof.
  unfold repr.
  pose proof (shape_str_loop_spec (shape info) (shape info) [] "[" eq_refl) as H.
  change (length (@nil Z)) with 0%nat in H. rewrite H.
  change ((0 <? 0)%nat && (0 <? length (shape info))%nat) with false.
  cbv iota. rewrite !append_assoc. reflexivity.
Qed.

End Printing.

(** ** Further edge cases *)

Section EdgeCases.

Import Examples.

(** X14.  In every descriptor [get_tensor_info] returns, with or without
    a shape, the data-available flag is the outcome of the probe for [data]
    on the tensor object and nothing else: [data] is neither called nor
    read, so an unusable [data] still counts as available. *)
Theorem data_available_is_probe
    (state : pyobj) (idx : Z) (tensor_obj : pyobj) (info : TensorInfo) :
  Pybind.attr_call state "getTensor" [idx] = Ok tensor_obj ->
  get_tensor_info state idx = Ok info ->
  data_available info = Py.hasattr tensor_obj "data".
Proof.
  intros Hc. unfold get_tensor_info.
  destruct (Py.hasattr state "getTensor"); simpl; [|discriminate].
  rewrite Hc. simpl.
  destruct (Py.hasattr tensor_obj "extents").
  - destruct (Pybind.attr tensor_obj "extents") as [ext|]; simpl; [|discriminate].
    destruct (Pybind.cast_vector_size_t ext) as [extents|]; simpl; [|discriminate].
    intros [= <-]. by destruct (Py.hasattr tensor_obj "data").
  - simpl. intros [= <-]. by destruct (Py.hasattr tensor_obj "data").
Qed.

Lemma data_available_is_probe_witness :
  data_available (mkTensorInfo [2; 2] 4 64 "complex128" 1)
    = Py.hasattr tensor_data_failing "data".
Proof.
  apply (data_available_is_probe (handle_of tensor_data_failing) 0).
  - vm_compute. reflexivity.
  - vm_compute. reflexivity.
Defined.

(** X15.  A tensor with a zero-size dimension extracts to an array with
    that shape and no bytes, whatever its device pointer is, as long as the
    device is healthy and the array library accepts the shape: nothing is
    read from the device. *)
Theorem extract_tensor_data_zero_dimension
    (state : pyobj) (idx : Z) (extents : list Z) (device_ptr r : Z) (m : machine) :
  exposes state "getTensor" ->
  locate_tensor state idx = Ok (extents, device_ptr) ->
  0 ∈ extents ->
  gpu_sticky m = cudaSuccess ->
  npy_check_dims (map Word.to_ssize extents) Word.sizeof_complex_double = Ok r ->
  fst (extract_tensor_data state idx m) = Ok {| nd_shape := extents; nd_data := [] |}.
Proof.
  intros Hs Hloc Hzero Hsticky Hcheck. apply hasattr_exposes in Hs.
  rewrite (extract_tensor_data_split _ _ _ Hs), Hloc.
  pose proof (locate_tensor_range _ _ _ _ Hloc) as Hrange.
  rewrite (transfer_spec _ _ _ Hrange).
  destruct (accepted_shape _ _ Hrange Hcheck) as (_ & Htotal & _).
  rewrite Htotal, (product_zero _ Hzero), Hsticky, Hcheck. reflexivity.
Qed.

Lemma extract_tensor_data_zero_dimension_witness :
  fst (extract_tensor_data (handle_of tensor_empty) 0 machine_short)
    = Ok {| nd_shape := [3; 0; 4]; nd_data := [] |}.
Proof.
  apply (extract_tensor_data_zero_dimension (handle_of tensor_empty) 0
           [3; 0; 4] 0 192 machine_short).
  - vm_compute. eexists. reflexivity.
  - vm_compute. reflexivity.
  - apply elem_of_cons. right. apply elem_of_cons. by left.
  - reflexivity.
  - vm_compute. reflexivity.
Defined.

End EdgeCases.
